(** * PyNBIS: the C extension [pynbis/_nbis_ext.c] over the NBIS engines

    A shallow embedding of the extension module that binds NBIS (MINDTCT,
    Bozorth3, NFIQ) to Python.  The four entry points of [_nbis_ext.c] and
    their two helpers are transcribed function by function.  The NBIS
    library itself ([nbis_src/]) is linked, not part of the extension: its
    constants and its three engine functions are the fields of
    [nbis_library], and a model of the engines written from the
    specification is given in [Module SpecEngines]. *)

From stdpp Require Import gmap strings list.
From Stdlib Require Import ZArith QArith Lia.

#[local] Set Warnings "-register-all".
#[local] Open Scope Z_scope.

(** ** C integers *)

(** A value stored in a signed integer of [bits] bits (two's complement). *)
Definition wrap_signed (bits z : Z) : Z :=
  (z + 2 ^ (bits - 1)) mod 2 ^ bits - 2 ^ (bits - 1).

(** [(int)e] on the LP64 targets the package builds for. *)
Definition to_int (z : Z) : Z := wrap_signed 32 z.

(** Conversion to [size_t] (64 bits, unsigned). *)
Definition to_size_t (z : Z) : Z := z mod 2 ^ 64.

Definition INT_MIN : Z := - 2 ^ 31.
Definition INT_MAX : Z := 2 ^ 31 - 1.
Definition LONG_MIN : Z := - 2 ^ 63.
Definition LONG_MAX : Z := 2 ^ 63 - 1.

(** ** Python values seen by the extension *)

(** Element types of a numpy array: [uint8], and [float64] standing for a
    type with no safe cast to [uint8]. *)
Inductive npy_type := NPY_UINT8 | NPY_FLOAT64.

(** A numpy array: element type, shape ([PyArray_NDIM] is the length of
    [dims]) and the elements in C order. *)
Record ndarray := mk_ndarray {
  dtype : npy_type;
  dims : list Z;
  adata : list Z
}.

Inductive PyObject :=
| PyNone
| PyLong (n : Z)
| PyFloat (q : Q)
| PyUnicode (s : string)
| PyList (items : list PyObject)
| PyDict (d : gmap string PyObject)
| PyArray (a : ndarray).

(** The exceptions the extension sets, with their messages. *)
Inductive PyExc :=
| PyExc_ValueError (msg : string)
| PyExc_TypeError (msg : string)
| PyExc_RuntimeError (msg : string)
| PyExc_OverflowError (msg : string).

(** What a [PyCFunction] hands back to the interpreter: the returned
    pointer and the error indicator.  [Py_Return v] is a result with no
    error set, [Py_Raise e] is [NULL] with [e] set, and
    [Py_ReturnWithErrorSet v e] is a result returned while [e] is still
    set, which the interpreter turns into a [SystemError]. *)
Inductive py_return :=
| Py_Return (v : PyObject)
| Py_Raise (e : PyExc)
| Py_ReturnWithErrorSet (v : PyObject) (e : PyExc).

Definition is_raise (r : py_return) : Prop := exists e, r = Py_Raise e.

Definition yields_result (r : py_return) : Prop := exists v, r = Py_Return v.

(** [PyLong_AsLong]: the value of an int that fits a C [long]; [-1] with an
    error set otherwise. *)
Definition PyLong_AsLong (o : PyObject) : Z * option PyExc :=
  match o with
  | PyLong n =>
      if (LONG_MIN <=? n) && (n <=? LONG_MAX) then (n, None)
      else (-1, Some (PyExc_OverflowError "Python int too large to convert to C long"))
  | _ => (-1, Some (PyExc_TypeError "an integer is required"))
  end.

(** The optional ["i"] argument of [PyArg_ParseTupleAndKeywords]: the
    default when absent, an int in the range of C [int] when present. *)
Definition parse_optional_int (default : Z) (arg : option PyObject) : PyExc + Z :=
  match arg with
  | None => inr default
  | Some (PyLong n) =>
      if (INT_MIN <=? n) && (n <=? INT_MAX) then inr n
      else inl (PyExc_OverflowError "signed integer out of range")
  | Some _ => inl (PyExc_TypeError "an integer is required")
  end.

(** [PyArray_FROM_OTF(obj, NPY_UINT8, NPY_ARRAY_IN_ARRAY)] on an array: a
    contiguous [uint8] array with the same shape and elements, or [NULL]
    when the element type has no safe cast. *)
Definition PyArray_FROM_OTF_UINT8 (a : ndarray) : option ndarray :=
  match dtype a with
  | NPY_UINT8 => Some a
  | NPY_FLOAT64 => None
  end.

(** ** NBIS data the extension exchanges with the engines *)

(** The fields of [MINUTIA] (lfs.h) the extension reads; [reliability] is
    a [double], held here as a rational. *)
Record MINUTIA := mk_MINUTIA {
  m_x : Z;
  m_y : Z;
  m_direction : Z;
  m_reliability : Q;
  m_type : Z
}.

(** [struct xyt_struct] (bozorth.h): [nrows] and the filled prefix of the
    three columns. *)
Record xyt_struct := mk_xyt {
  nrows : Z;
  xcol : list Z;
  ycol : list Z;
  thetacol : list Z
}.

(** The outputs of [lfs_detect_minutiae_V2] the extension uses; the four
    block maps are freed unread. *)
Record lfs_output := mk_lfs_output {
  lfs_ret : Z;
  lfs_minutiae : list MINUTIA;
  lfs_binarized : list Z;
  lfs_bw : Z;
  lfs_bh : Z
}.

(** The outputs of [comp_nfiq]: return code, class and confidence. *)
Record nfiq_output := mk_nfiq_output {
  nfiq_ret : Z;
  nfiq_value : Z;
  conf_value : Q
}.

(** Modelled from the spec: [LFSPARMS] (lfs.h is not among the sources)
    holds the detection parameters that section 4.1 names: the block size
    and the contrast and flow thresholds a block has to pass. *)
Record LFSPARMS := mk_LFSPARMS {
  blocksize : Z;
  min_contrast : N;
  min_flow : Z
}.

(** ** Module globals ([_nbis_ext.c], lines 36-44) *)

Inductive FILE := stderr.

Record nbis_globals := mk_globals {
  m1_xyt : Z;
  max_minutiae : Z;
  min_computable_minutiae : Z;
  verbose_main : Z;
  verbose_load : Z;
  verbose_bozorth : Z;
  verbose_threshold : Z;
  errorfp : option FILE
}.

(** The constants the extension takes from the NBIS headers (bozorth.h,
    lfs.h; not among the sources), and the parameter set [lfsparms_V2]. *)
Record nbis_headers := mk_nbis_headers {
  MAX_BOZORTH_MINUTIAE : Z;
  DEFAULT_BOZORTH_MINUTIAE : Z;
  MIN_COMPUTABLE_BOZORTH_MINUTIAE : Z;
  DEFAULT_PPI : Z;
  RIDGE_ENDING : Z;
  lfsparms_V2 : LFSPARMS
}.

(** Modelled from the spec: what the extension links against and does not
    define, the three engine functions of [nbis_src/] (not among the
    sources), beside the header constants.  Following sections 3 and 5 of
    the specification each engine is a function of its explicit inputs;
    the matcher also reads the configuration globals the extension defines
    for it. *)
Record nbis_library := mk_nbis_library {
  nbis_hdr :> nbis_headers;
  lfs_detect_minutiae_V2 : list Z -> Z -> Z -> LFSPARMS -> lfs_output;
  comp_nfiq : list Z -> Z -> Z -> Z -> Z -> nfiq_output;
  bz_match_score : nbis_globals -> Z -> xyt_struct -> xyt_struct -> Z
}.

(** ** The extension *)

(** The image buffer [py_to_image_data] returns with its out-parameters. *)
Record image_data := mk_image_data {
  img_data : list Z;
  img_width : Z;
  img_height : Z;
  img_depth : Z
}.

(** The shape test of [py_to_image_data]: the two leading dimensions of a
    2D array or of a 3D array whose last dimension is 1. *)
Definition grayscale_dims (ds : list Z) : option (Z * Z) :=
  match ds with
  | [d0; d1] => Some (d0, d1)
  | [d0; d1; d2] => if d2 =? 1 then Some (d0, d1) else None
  | _ => None
  end.

(** [py_to_image_data].  [width * height] is computed in [int] and
    converted to [size_t]; [memcpy] copies that many bytes of the array.
    An allocation failure of [malloc] is not modelled, so the properties
    below are stated for shapes whose product stays in the range of
    [int]: beyond it the C code asks [malloc] for the wrapped size. *)
Definition py_to_image_data (image_obj : PyObject) : PyExc + image_data :=
  match image_obj with
  | PyArray a =>
      match PyArray_FROM_OTF_UINT8 a with
      | None => inl (PyExc_ValueError "Failed to convert image to uint8 array")
      | Some array =>
          match grayscale_dims (dims array) with
          | Some (d0, d1) =>
              let height := to_int d0 in
              let width := to_int d1 in
              let data_size := to_size_t (to_int (width * height)) in
              inr (mk_image_data (take (Z.to_nat data_size) (adata array))
                                 width height 8)
          | None => inl (PyExc_ValueError "Image must be 2D grayscale")
          end
      end
  | _ => inl (PyExc_TypeError "Image must be a numpy array")
  end.

(** [minutiae_to_xyt]: the first [min(num, max_count)] minutiae, in list
    order. *)
Definition minutiae_to_xyt (minutiae : list MINUTIA) (max_count : Z) : xyt_struct :=
  let num := Z.of_nat (length minutiae) in
  let count := if num <? max_count then num else max_count in
  let rows := take (Z.to_nat count) minutiae in
  mk_xyt count (m_x <$> rows) (m_y <$> rows) (m_direction <$> rows).

Section Extension.

Context (nbis : nbis_library).

(** The initial values of the globals and the module initialiser, which
    points [errorfp] at [stderr] once. *)
Definition initial_globals : nbis_globals :=
  mk_globals 0 (MAX_BOZORTH_MINUTIAE nbis) (MIN_COMPUTABLE_BOZORTH_MINUTIAE nbis)
             0 0 0 0 None.

Definition PyInit__nbis_ext (g : nbis_globals) : nbis_globals :=
  match errorfp g with
  | None =>
      mk_globals (m1_xyt g) (max_minutiae g) (min_computable_minutiae g)
                 (verbose_main g) (verbose_load g) (verbose_bozorth g)
                 (verbose_threshold g) (Some stderr)
  | Some _ => g
  end.

(** The dictionary built for one minutia in [nbis_extract_minutiae]. *)
Definition min_dict (m : MINUTIA) : PyObject :=
  PyDict (<["x" := PyLong (m_x m)]>
         (<["y" := PyLong (m_y m)]>
         (<["direction" := PyLong (m_direction m)]>
         (<["type" := PyLong (m_type m)]>
         (<["quality" := PyFloat (m_reliability m)]>
         (<["type_str" := PyUnicode (if m_type m =? RIDGE_ENDING nbis
                                     then "ending" else "bifurcation")]> ∅)))))).

(** [nbis_extract_minutiae].  [ppi] is parsed and not used: detection
    runs with [lfsparms_V2]. *)
Definition nbis_extract_minutiae (image_obj : PyObject) (ppi_arg : option PyObject)
  : py_return :=
  match parse_optional_int (DEFAULT_PPI nbis) ppi_arg with
  | inl e => Py_Raise e
  | inr ppi =>
      match py_to_image_data image_obj with
      | inl e => Py_Raise e
      | inr img =>
          let out := lfs_detect_minutiae_V2 nbis (img_data img) (img_width img)
                       (img_height img) (lfsparms_V2 nbis) in
          if negb (lfs_ret out =? 0) then
            Py_Raise (PyExc_RuntimeError "Minutiae detection failed")
          else
            let minutiae_list := PyList (min_dict <$> lfs_minutiae out) in
            let num := Z.of_nat (length (lfs_minutiae out)) in
            let bw := lfs_bw out in
            let bh := lfs_bh out in
            let bin_array :=
              PyArray (mk_ndarray NPY_UINT8 [bh; bw]
                         (take (Z.to_nat (to_size_t (to_int (bw * bh))))
                               (lfs_binarized out))) in
            Py_Return (PyDict (<["binarized" := bin_array]>
                              (<["count" := PyLong num]>
                              (<["minutiae" := minutiae_list]> ∅))))
      end
  end.

(** [nbis_match_fingerprints].  Both images are converted first; when
    both conversions fail the error set last, the gallery's, is raised. *)
Definition nbis_match_fingerprints (g : nbis_globals) (probe_obj gallery_obj : PyObject)
  : py_return :=
  match py_to_image_data probe_obj, py_to_image_data gallery_obj with
  | inr probe, inr gallery =>
      let out1 := lfs_detect_minutiae_V2 nbis (img_data probe) (img_width probe)
                    (img_height probe) (lfsparms_V2 nbis) in
      if negb (lfs_ret out1 =? 0) then
        Py_Raise (PyExc_RuntimeError "Probe minutiae detection failed")
      else
        let out2 := lfs_detect_minutiae_V2 nbis (img_data gallery) (img_width gallery)
                      (img_height gallery) (lfsparms_V2 nbis) in
        if negb (lfs_ret out2 =? 0) then
          Py_Raise (PyExc_RuntimeError "Gallery minutiae detection failed")
        else
          let probe_xyt := minutiae_to_xyt (lfs_minutiae out1) (MAX_BOZORTH_MINUTIAE nbis) in
          let gallery_xyt := minutiae_to_xyt (lfs_minutiae out2) (MAX_BOZORTH_MINUTIAE nbis) in
          let score := bz_match_score nbis g (DEFAULT_BOZORTH_MINUTIAE nbis)
                         probe_xyt gallery_xyt in
          Py_Return (PyLong score)
  | _, inl e => Py_Raise e
  | inl e, inr _ => Py_Raise e
  end.

(** [nbis_compute_nfiq]: a negative return code of [comp_nfiq] raises,
    any other is handed back beside the class and the confidence. *)
Definition nbis_compute_nfiq (image_obj : PyObject) (ppi_arg : option PyObject)
  : py_return :=
  match parse_optional_int (DEFAULT_PPI nbis) ppi_arg with
  | inl e => Py_Raise e
  | inr ppi =>
      match py_to_image_data image_obj with
      | inl e => Py_Raise e
      | inr img =>
          let out := comp_nfiq nbis (img_data img) (img_width img) (img_height img)
                       (img_depth img) ppi in
          if nfiq_ret out <? 0 then
            Py_Raise (PyExc_RuntimeError "NFIQ computation failed")
          else
            Py_Return (PyDict (<["quality" := PyLong (nfiq_value out)]>
                              (<["confidence" := PyFloat (conf_value out)]>
                              (<["return_code" := PyLong (nfiq_ret out)]> ∅))))
      end
  end.

(** One of the two parsing loops of [nbis_match_xyt], over the items the
    loop visits.  The rows read so far are returned with the error
    indicator: [PyLong_AsLong] may set it and the loop goes on. *)
Fixpoint parse_minutiae (items : list PyObject) (err : option PyExc)
  : PyExc + (list (Z * Z * Z) * option PyExc) :=
  match items with
  | [] => inr ([], err)
  | item :: rest =>
      match item with
      | PyDict d =>
          match d !! "x", d !! "y", d !! "direction" with
          | Some x_obj, Some y_obj, Some t_obj =>
              let '(x, ex) := PyLong_AsLong x_obj in
              let '(y, ey) := PyLong_AsLong y_obj in
              let '(t, et) := PyLong_AsLong t_obj in
              let err' := from_option Some (from_option Some (from_option Some err ex) ey) et in
              match parse_minutiae rest err' with
              | inl e => inl e
              | inr (rows, err'') => inr ((to_int x, to_int y, to_int t) :: rows, err'')
              end
          | _, _, _ => inl (PyExc_ValueError "Minutiae must have x, y, and direction")
          end
      | _ => inl (PyExc_TypeError "Minutiae must be dictionaries")
      end
  end.

Definition xyt_of_rows (count : Z) (rows : list (Z * Z * Z)) : xyt_struct :=
  mk_xyt count ((fun r => r.1.1) <$> rows) ((fun r => r.1.2) <$> rows)
         ((fun r => r.2) <$> rows).

(** [nbis_match_xyt]: the counts are capped first, then only the capped
    prefixes are parsed. *)
Definition nbis_match_xyt (g : nbis_globals) (probe_list gallery_list : PyObject)
  : py_return :=
  match probe_list, gallery_list with
  | PyList probe_items, PyList gallery_items =>
      let probe_size := Z.of_nat (length probe_items) in
      let gallery_size := Z.of_nat (length gallery_items) in
      let probe_count :=
        if MAX_BOZORTH_MINUTIAE nbis <? probe_size
        then MAX_BOZORTH_MINUTIAE nbis else probe_size in
      let gallery_count :=
        if MAX_BOZORTH_MINUTIAE nbis <? gallery_size
        then MAX_BOZORTH_MINUTIAE nbis else gallery_size in
      match parse_minutiae (take (Z.to_nat probe_count) probe_items) None with
      | inl e => Py_Raise e
      | inr (probe_rows, err1) =>
          match parse_minutiae (take (Z.to_nat gallery_count) gallery_items) err1 with
          | inl e => Py_Raise e
          | inr (gallery_rows, err2) =>
              let probe_xyt := xyt_of_rows probe_count probe_rows in
              let gallery_xyt := xyt_of_rows gallery_count gallery_rows in
              let score := bz_match_score nbis g (DEFAULT_BOZORTH_MINUTIAE nbis)
                             probe_xyt gallery_xyt in
              match err2 with
              | None => Py_Return (PyLong score)
              | Some e => Py_ReturnWithErrorSet (PyLong score) e
              end
          end
      end
  | _, _ => Py_Raise (PyExc_TypeError "Both arguments must be lists of minutiae")
  end.

End Extension.

(** ** The three-tier status of the specification *)

Inductive status := Success | AlgorithmicCondition | SystemFailure.

(** The reading of [comp_nfiq]'s return code that [nbis_compute_nfiq]
    documents: 0 is success, a positive code an algorithmic condition, a
    negative code a system error. *)
Definition status_of_return_code (ret : Z) : status :=
  if ret <? 0 then SystemFailure
  else if ret =? 0 then Success
  else AlgorithmicCondition.

(** ** Well-formed inputs *)

(** A grayscale image of width [W] and height [H] as numpy holds it: a 2D
    [uint8] array of shape [(H, W)] with [H * W] pixels, of a size C [int]
    can count. *)
Definition valid_image (a : ndarray) (W H : Z) : Prop :=
  dtype a = NPY_UINT8 /\ dims a = [H; W] /\
  0 <= W <= INT_MAX /\ 0 <= H <= INT_MAX /\ W * H <= INT_MAX /\
  length (adata a) = Z.to_nat (W * H) /\
  forallb (fun p => (0 <=? p) && (p <? 256)) (adata a) = true.

(** A [ppi] argument the entry points accept: absent, or an int in the
    range of C [int]. *)
Definition valid_ppi (arg : option PyObject) : bool :=
  match arg with
  | None => true
  | Some (PyLong n) => (INT_MIN <=? n) && (n <=? INT_MAX)
  | Some _ => false
  end.

Definition fits_long (o : PyObject) : bool :=
  match o with
  | PyLong n => (LONG_MIN <=? n) && (n <=? LONG_MAX)
  | _ => false
  end.

(** A minutia record of the shape [{x:int, y:int, direction:int}]; other
    keys may be present. *)
Definition is_minutia_record (o : PyObject) : bool :=
  match o with
  | PyDict d =>
      match d !! "x", d !! "y", d !! "direction" with
      | Some x_obj, Some y_obj, Some t_obj =>
          fits_long x_obj && fits_long y_obj && fits_long t_obj
      | _, _, _ => false
      end
  | _ => false
  end.

(** A malformed record: not a dictionary, or a dictionary that lacks one
    of the keys [x], [y], [direction]. *)
Definition malformed_record (o : PyObject) : bool :=
  match o with
  | PyDict d =>
      match d !! "x", d !! "y", d !! "direction" with
      | Some _, Some _, Some _ => false
      | _, _, _ => true
      end
  | _ => true
  end.

(** The [TypeError] and the [ValueError] the parsing loops raise. *)
Definition invalid_input (e : PyExc) : Prop :=
  e = PyExc_TypeError "Minutiae must be dictionaries" \/
  e = PyExc_ValueError "Minutiae must have x, y, and direction".

(** The dictionary [nbis_compute_nfiq] builds from the outputs of
    [comp_nfiq]. *)
Definition quality_dict (out : nfiq_output) : PyObject :=
  PyDict (<["quality" := PyLong (nfiq_value out)]>
         (<["confidence" := PyFloat (conf_value out)]>
         (<["return_code" := PyLong (nfiq_ret out)]> ∅))).

(** What a caller reads in a dictionary of the list returned under
    ["minutiae"]: a position inside a [W] by [H] image, a reliability in
    [0, 1], and one of the two types, as its code [t] (one of the two codes
    [ending] and [bifurc]) and as its name. *)
Definition minutia_record_ok (W H ending bifurc : Z) (r : PyObject) : Prop :=
  exists (d : gmap string PyObject) (x y t : Z) (q : Q) (s : string),
    r = PyDict d /\
    d !! "x" = Some (PyLong x) /\ d !! "y" = Some (PyLong y) /\
    d !! "quality" = Some (PyFloat q) /\
    d !! "type" = Some (PyLong t) /\ d !! "type_str" = Some (PyUnicode s) /\
    0 <= x < W /\ 0 <= y < H /\ (0 <= q)%Q /\ (q <= 1)%Q /\
    (t = ending \/ t = bifurc) /\ (s = "ending" \/ s = "bifurcation").

(** Following the words of the specification: the [n] entries of highest
    reliability, ties broken by the original order (a stable insertion by
    descending reliability, then the first [n]). *)
Fixpoint insert_by_reliability (m : MINUTIA) (sorted : list MINUTIA) : list MINUTIA :=
  match sorted with
  | [] => [m]
  | m' :: rest =>
      if Qle_bool (m_reliability m) (m_reliability m')
      then m' :: insert_by_reliability m rest
      else m :: sorted
  end.

Definition sort_by_reliability (l : list MINUTIA) : list MINUTIA :=
  foldr insert_by_reliability [] (reverse l).

Definition most_reliable (n : nat) (l : list MINUTIA) : list MINUTIA :=
  take n (sort_by_reliability l).

(** ** The engines, modelled from the specification *)

Module SpecEngines.

(** The two minutia types of section 3. *)
Inductive minutia_type := ridge_ending | bifurcation.

(** The features section 4.4 derives for the quality classifier. *)
Record quality_features := mk_features {
  minutiae_count : Z;
  block_quality : list Z;
  global_contrast : Z;
  flow_ratio : Q
}.

(** Modelled from the spec: the parts of the engines the specification
    calls fixed and leaves open (section 9): the binning and tolerances
    of the matcher, the per-block measures and the pattern test of the
    detector, the decision procedure of the quality scorer. *)
Record spec_parameters := mk_spec_parameters {
  discretize : Z -> Z -> Z -> Z -> Z * Z;
  edge_compatible : Z * Z -> Z * Z -> bool;
  transform_consistent :
    list ((nat * (Z * Z * Z)) * (nat * (Z * Z * Z))) ->
    (nat * (Z * Z * Z)) * (nat * (Z * Z * Z)) -> bool;
  orientation : list Z -> Z;
  flow_consistency : list Z -> Z;
  ridge_pixel : Z -> list Z -> Z -> Z -> Z -> Z -> bool;
  ridge_pattern : list Z -> Z -> Z -> Z -> Z -> option minutia_type;
  reliability_measure : Z -> Z -> Z -> Q;
  BIFURCATION : Z;
  parms_of_ppi : Z -> LFSPARMS;
  min_minutiae : Z;
  quality_class : quality_features -> Z;
  confidence : quality_features -> Q
}.

(** The codes [nbis_compute_nfiq] names for algorithmic conditions, and
    the class of a degenerate image (nfiq.h is not among the sources). *)
Definition EMPTY_IMG : Z := 1.
Definition TOO_FEW_MINUTIAE : Z := 2.
Definition WORST_CLASS : Z := 5.

Definition clamp01 (q : Q) : Q :=
  if Qle_bool q 0 then 0%Q else if Qle_bool 1 q then 1%Q else q.

Definition clamp_class (c : Z) : Z := Z.max 1 (Z.min 5 c).

Section Engines.

Context (sp : spec_parameters).

(** *** Minutiae set matcher (section 4.3) *)

Definition point : Type := Z * Z * Z.
Definition correspondence : Type := (nat * point) * (nat * point).

(** The minutiae of a set, at most [np] of them. *)
Definition xyt_points (np : Z) (s : xyt_struct) : list point :=
  take (Z.to_nat np) (take (Z.to_nat (nrows s)) (zip (zip (xcol s) (ycol s)) (thetacol s))).

Definition indexed (pts : list point) : list (nat * point) :=
  zip (seq 0 (length pts)) pts.

(** The binned (distance, relative bearing) relation from [a] to [b]. *)
Definition edge_of (a b : point) : Z * Z :=
  discretize sp (b.1.1 - a.1.1) (b.1.2 - a.1.2) a.2 b.2.

(** Step 1: the relations between every ordered pair of minutiae. *)
Definition relation_table (pts : list point) : list (nat * nat * (Z * Z)) :=
  flat_map (fun ia : nat * point =>
    flat_map (fun jb : nat * point =>
      if (ia.1 =? jb.1)%nat then [] else [(ia.1, jb.1, edge_of ia.2 jb.2)])
      (indexed pts))
    (indexed pts).

(** Step 2: minutia [i] of the probe and [k] of the gallery have a
    compatible pairing of neighbours. *)
Definition has_compatible_neighbours (tp tg : list (nat * nat * (Z * Z))) (i k : nat)
  : bool :=
  existsb (fun e : nat * nat * (Z * Z) =>
    (i =? e.1.1)%nat &&
    existsb (fun f : nat * nat * (Z * Z) =>
      (k =? f.1.1)%nat && edge_compatible sp e.2 f.2) tg) tp.

Definition candidates (P G : list point) : list correspondence :=
  let tp := relation_table P in
  let tg := relation_table G in
  List.filter (fun c : correspondence => has_compatible_neighbours tp tg c.1.1 c.2.1)
    (list_prod (indexed P) (indexed G)).

(** Step 3: two correspondences agree when they pair distinct minutiae
    whose relations match. *)
Definition pair_compatible (c c' : correspondence) : bool :=
  negb (c.1.1 =? c'.1.1)%nat && negb (c.2.1 =? c'.2.1)%nat &&
  edge_compatible sp (edge_of c.1.2 c'.1.2) (edge_of c.2.2 c'.2.2).

(** The cluster grown from [seed], traversing the candidates in their
    fixed order. *)
Definition grow_cluster (cands : list correspondence) (seed : correspondence)
  : list correspondence :=
  fold_left (fun cluster c =>
      if forallb (fun c' => pair_compatible c' c) cluster
         && transform_consistent sp cluster c
      then cluster ++ [c] else cluster)
    cands [seed].

Definition largest_cluster (cands : list correspondence) : nat :=
  foldr Nat.max 0%nat ((fun seed => length (grow_cluster cands seed)) <$> cands).

(** Step 4: the size of the largest cluster; a cluster needs two
    correspondences to be validated. *)
Definition match_score (P G : list point) : Z :=
  let n := largest_cluster (candidates P G) in
  if (n <? 2)%nat then 0 else Z.of_nat n.

(** Modelled from the spec: [bz_match_score] of Bozorth3 ([nbis_src/]
    is not among the sources), as the geometric-consistency voting of
    section 4.3 over at most [np] minutiae of each set. *)
Definition bz_match_score (g : nbis_globals) (np : Z) (pstruct gstruct : xyt_struct) : Z :=
  match_score (xyt_points np pstruct) (xyt_points np gstruct).

(** *** Preprocessor (section 4.1) *)

(** The raster of pixel positions of a [W] by [H] image. *)
Definition scan (W H : Z) : list (Z * Z) :=
  y ← seqZ 0 H; (fun x => (x, y)) <$> seqZ 0 W.

Definition pixel_at (img : list Z) (W : Z) (xy : Z * Z) : option Z :=
  img !! Z.to_nat (xy.2 * W + xy.1).

(** The pixels of block [(bx, by)] that lie in the image. *)
Definition block_pixels (bs : Z) (img : list Z) (W H bx by_ : Z) : list Z :=
  omap (pixel_at img W)
    (List.filter (fun xy : Z * Z => (xy.1 <? W) && (xy.2 <? H))
       (y ← seqZ (by_ * bs) bs; (fun x => (x, y)) <$> seqZ (bx * bs) bs)).

(** The contrast measure of a block: the spread of its pixel values. *)
Definition spread (l : list Z) : Z :=
  match l with
  | [] => 0
  | p :: rest => foldr Z.max p rest - foldr Z.min p rest
  end.

(** The partition is into blocks of the fixed size: block [(bx, by)]
    belongs to it when it lies whole in the image. *)
Definition block_in_image (bs W H bx by_ : Z) : bool :=
  (0 <=? bx) && (0 <=? by_) && ((bx + 1) * bs <=? W) && ((by_ + 1) * bs <=? H).

(** A block of the partition is valid when it passes the contrast and flow
    thresholds. *)
Definition block_valid (parms : LFSPARMS) (img : list Z) (W H bx by_ : Z) : bool :=
  let px := block_pixels (blocksize parms) img W H bx by_ in
  block_in_image (blocksize parms) W H bx by_
  && (min_contrast parms <? Z.to_N (spread px))%N
  && (min_flow parms <=? flow_consistency sp px).

(** A small image: narrower or lower than one block. *)
Definition small_image (parms : LFSPARMS) (W H : Z) : bool :=
  (W <? blocksize parms) || (H <? blocksize parms).

(** A textureless image: the spread of all its pixel values does not
    exceed the contrast threshold. *)
Definition low_contrast (parms : LFSPARMS) (img : list Z) : bool :=
  (Z.to_N (spread img) <=? min_contrast parms)%N.

Definition pixel_valid (parms : LFSPARMS) (img : list Z) (W H : Z) (xy : Z * Z) : bool :=
  block_valid parms img W H (xy.1 / blocksize parms) (xy.2 / blocksize parms).

Definition block_direction (parms : LFSPARMS) (img : list Z) (W H : Z) (xy : Z * Z) : Z :=
  orientation sp (block_pixels (blocksize parms) img W H
                    (xy.1 / blocksize parms) (xy.2 / blocksize parms)).

(** The EMPTY_IMAGE condition: every block is flagged invalid. *)
Definition empty_image (parms : LFSPARMS) (img : list Z) (W H : Z) : bool :=
  forallb (fun xy => negb (pixel_valid parms img W H xy)) (scan W H).

(** Oriented binarization: each pixel becomes 0 (ridge) or 255. *)
Definition binarize (parms : LFSPARMS) (img : list Z) (W H : Z) : list Z :=
  (fun xy : Z * Z =>
     if pixel_valid parms img W H xy
        && ridge_pixel sp (block_direction parms img W H xy) img W H xy.1 xy.2
     then 0 else 255) <$> scan W H.

(** *** Minutiae detector (section 4.2) *)

Definition type_code (nbis : nbis_headers) (t : minutia_type) : Z :=
  match t with
  | ridge_ending => RIDGE_ENDING nbis
  | bifurcation => BIFURCATION sp
  end.

(** The minutia found at a position, if any: only in a valid block,
    where the binarized image [bin] shows an ending or a bifurcation. *)
Definition minutia_at (nbis : nbis_headers) (parms : LFSPARMS) (img bin : list Z) (W H : Z)
    (xy : Z * Z) : option MINUTIA :=
  if pixel_valid parms img W H xy then
    match ridge_pattern sp bin W H xy.1 xy.2 with
    | Some t =>
        let px := block_pixels (blocksize parms) img W H
                    (xy.1 / blocksize parms) (xy.2 / blocksize parms) in
        let border := Z.min (Z.min xy.1 (W - 1 - xy.1)) (Z.min xy.2 (H - 1 - xy.2)) in
        Some (mk_MINUTIA xy.1 xy.2 (block_direction parms img W H xy)
                (clamp01 (reliability_measure sp (spread px) (flow_consistency sp px) border))
                (type_code nbis t))
    | None => None
    end
  else None.

(** The detector scans the raster of the binarized image. *)
Definition detect (nbis : nbis_headers) (parms : LFSPARMS) (img : list Z) (W H : Z)
  : list MINUTIA :=
  let bin := binarize parms img W H in
  omap (minutia_at nbis parms img bin W H) (scan W H).

(** Modelled from the spec: [lfs_detect_minutiae_V2] of MINDTCT
    ([nbis_src/] is not among the sources): sections 4.1 and 4.2, the
    binarized image with the dimensions of the source, and return
    code 0. *)
Definition lfs_detect_minutiae_V2 (nbis : nbis_headers) (idata : list Z) (iw ih : Z)
    (parms : LFSPARMS) : lfs_output :=
  mk_lfs_output 0 (detect nbis parms idata iw ih) (binarize parms idata iw ih) iw ih.

(** *** Quality scorer (section 4.4) *)

Definition features_of (nbis : nbis_headers) (parms : LFSPARMS) (img : list Z) (W H : Z)
  : quality_features :=
  let bs := blocksize parms in
  let blocks := by_ ← seqZ 0 (H / bs); (fun bx => (bx, by_)) <$> seqZ 0 (W / bs) in
  mk_features (Z.of_nat (length (detect nbis parms img W H)))
              ((fun b : Z * Z => spread (block_pixels bs img W H b.1 b.2)) <$> blocks)
              (spread img)
              (Qmake (Z.of_nat (length (List.filter (pixel_valid parms img W H) (scan W H))))
                     (Pos.of_nat (length (scan W H)))).

(** Modelled from the spec: [comp_nfiq] of NFIQ ([nbis_src/] is not
    among the sources): section 4.4.  An image with no valid block and
    an image with too few minutiae are algorithmic conditions with the
    worst class; otherwise the class and the confidence come from the
    decision procedure. *)
Definition comp_nfiq (nbis : nbis_headers) (idata : list Z) (iw ih depth ppi : Z)
  : nfiq_output :=
  let parms := parms_of_ppi sp ppi in
  if empty_image parms idata iw ih then
    mk_nfiq_output EMPTY_IMG WORST_CLASS 1
  else if Z.of_nat (length (detect nbis parms idata iw ih)) <? min_minutiae sp then
    mk_nfiq_output TOO_FEW_MINUTIAE WORST_CLASS 1
  else
    let f := features_of nbis parms idata iw ih in
    mk_nfiq_output 0 (clamp_class (quality_class sp f)) (clamp01 (confidence sp f)).

(** The library made of the header constants [nbis] and the three
    modelled engines. *)
Definition spec_library (nbis : nbis_headers) : nbis_library :=
  mk_nbis_library nbis (lfs_detect_minutiae_V2 nbis) (comp_nfiq nbis) bz_match_score.

End Engines.

(** *** A sample instantiation, for evaluating the models *)

(** Squared distance and direction difference, unbinned; edges are
    compatible when equal; a pixel is a ridge when darker than 128; a
    ridge pixel whose left neighbour is not a ridge is an ending. *)
Definition sample_parameters : spec_parameters :=
  mk_spec_parameters
    (fun dx dy ta tb => (dx * dx + dy * dy, (tb - ta) mod 360))
    (fun e f => (e.1 =? f.1) && (e.2 =? f.2))
    (fun _ _ => true)
    (fun _ => 0)
    (fun px => Z.of_nat (length px))
    (fun _ img W _ x y => match img !! Z.to_nat (y * W + x) with
                          | Some p => p <? 128
                          | None => false
                          end)
    (fun bin W _ x y =>
       match bin !! Z.to_nat (y * W + x), bin !! Z.to_nat (y * W + x - 1) with
       | Some 0, Some 255 => if 0 <? x then Some ridge_ending else None
       | _, _ => None
       end)
    (fun c _ _ => Qmake c 255)
    0
    (fun ppi => mk_LFSPARMS 8 5 1)
    5
    (fun f => 5 - Z.min 4 (minutiae_count f / 2))
    (fun f => flow_ratio f).

(** The header values of NBIS: a cap of 200 minutiae, 150 by default, at
    least 10 to compute, 500 ppi, ridge endings coded 1. *)
Definition sample_headers : nbis_headers :=
  mk_nbis_headers 200 150 10 500 1 (mk_LFSPARMS 8 5 1).

Definition sample_library : nbis_library :=
  spec_library sample_parameters sample_headers.

End SpecEngines.

(** ** Further notions about the inputs *)

(** A value in the range of C [int]. *)
Definition in_int (z : Z) : bool := (INT_MIN <=? z) && (z <=? INT_MAX).

(** A minutia whose position and direction are C [int]s, as the fields of
    [MINUTIA] are. *)
Definition int_minutia (m : MINUTIA) : bool :=
  in_int (m_x m) && in_int (m_y m) && in_int (m_direction m).

(** The [int] a parsing loop of [nbis_match_xyt] stores for the key [key]
    of a record: [(int)PyLong_AsLong] of the object under the key. *)
Definition record_field (key : string) (o : PyObject) : Z :=
  match o with
  | PyDict d =>
      match d !! key with
      | Some v => to_int (PyLong_AsLong v).1
      | None => 0
      end
  | _ => 0
  end.

(** A shape whose two leading dimensions are positive and, with their
    product, in the range of C [int]: [width * height] does not overflow
    and [malloc] is asked for at least one byte. *)
Definition shape_fits_int (ds : list Z) : bool :=
  match ds with
  | d0 :: d1 :: _ =>
      (0 <? d0) && (d0 <=? INT_MAX) && (0 <? d1) && (d1 <=? INT_MAX)
      && (d0 * d1 <=? INT_MAX)
  | _ => true
  end.

(** The row [minutiae_to_xyt] writes for a minutia. *)
Definition xyt_row (m : MINUTIA) : Z * Z * Z := (m_x m, m_y m, m_direction m).

Definition is_list (o : PyObject) : bool :=
  match o with
  | PyList _ => true
  | _ => false
  end.

(** The exception a parsing loop of [nbis_match_xyt] sets on a malformed
    record: [TypeError] when it is not a dictionary, [ValueError] when a
    key is missing. *)
Definition error_of_record (o : PyObject) : PyExc :=
  match o with
  | PyDict _ => PyExc_ValueError "Minutiae must have x, y, and direction"
  | _ => PyExc_TypeError "Minutiae must be dictionaries"
  end.

(** What the parsing loops look at in a record: whether it is a
    dictionary, and the objects under the keys [x], [y], [direction]. *)
Definition xyt_view (o : PyObject)
  : option (option PyObject * option PyObject * option PyObject) :=
  match o with
  | PyDict d => Some (d !! "x", d !! "y", d !! "direction")
  | _ => None
  end.

(** The minutiae the detection engine finds on an image object, none when
    the object is not converted. *)
Definition detected (nbis : nbis_library) (image_obj : PyObject) : lfs_output :=
  match py_to_image_data image_obj with
  | inr img => lfs_detect_minutiae_V2 nbis (img_data img) (img_width img) (img_height img)
                 (lfsparms_V2 nbis)
  | inl _ => mk_lfs_output 0 [] [] 0 0
  end.

(** The shape of a dictionary of the list [nbis_extract_minutiae] returns:
    six keys, and a [type_str] that names the type code, [ending] being
    the code of a ridge ending. *)
Definition extracted_record (ending : Z) (r : PyObject) : Prop :=
  exists (d : gmap string PyObject) (x y t ty : Z) (q : Q),
    r = PyDict d /\
    dom d = list_to_set ["x"; "y"; "direction"; "type"; "quality"; "type_str"] /\
    d !! "x" = Some (PyLong x) /\ d !! "y" = Some (PyLong y) /\
    d !! "direction" = Some (PyLong t) /\ d !! "type" = Some (PyLong ty) /\
    d !! "quality" = Some (PyFloat q) /\
    d !! "type_str" = Some (PyUnicode (if ty =? ending then "ending" else "bifurcation")).

(** A value [PyLong_AsLong] cannot read: an int outside the range of C
    [long], or an object that is no int and has no [__index__] (None, a
    float, a string, a list, a dictionary). *)
Definition unreadable_value (o : PyObject) : bool :=
  match o with
  | PyLong n => negb ((LONG_MIN <=? n) && (n <=? LONG_MAX))
  | PyArray _ => false
  | _ => true
  end.

(** A dictionary with the three keys, one of which holds such a value. *)
Definition unreadable_record (o : PyObject) : bool :=
  match o with
  | PyDict d =>
      match d !! "x", d !! "y", d !! "direction" with
      | Some x_obj, Some y_obj, Some t_obj =>
          unreadable_value x_obj || unreadable_value y_obj || unreadable_value t_obj
      | _, _, _ => false
      end
  | _ => false
  end.

(** A record as [nbis_extract_minutiae] returns it, with a coordinate
    replaced by a float. *)
Definition float_record : PyObject :=
  PyDict (<["x" := PyFloat 1]> (<["y" := PyLong 2]> (<["direction" := PyLong 3]> ∅))).

(** A dictionary with no [direction]. *)
Definition headless_record : PyObject :=
  PyDict (<["x" := PyLong 1]> (<["y" := PyLong 2]> ∅)).

(** ** Sample inputs *)

(** A minutia record as the direct-matching entry point takes it. *)
Definition minutia_record (x y t : Z) : PyObject :=
  PyDict (<["x" := PyLong x]> (<["y" := PyLong y]> (<["direction" := PyLong t]> ∅))).

Definition sample_set : list PyObject :=
  [minutia_record 0 0 0; minutia_record 3 4 10; minutia_record 10 0 90].

(** A 16 by 8 image with a dark band between two bright ones. *)
Definition sample_pixels : list Z :=
  y ← seqZ 0 8; (fun x => if (4 <=? x) && (x <? 12) then 0 else 200) <$> seqZ 0 16.

Definition sample_image : ndarray := mk_ndarray NPY_UINT8 [8; 16] sample_pixels.

(** The constant-valued image of width [W] and height [H]. *)
Definition constant_image (W H c : Z) : ndarray :=
  mk_ndarray NPY_UINT8 [H; W] (replicate (Z.to_nat (W * H)) c).

(** Two minutiae of low and of high reliability, and a list of 201 in
    which the most reliable one comes last. *)
Definition low_minutia : MINUTIA := mk_MINUTIA 10 10 0 (1 # 10) 1.
Definition high_minutia : MINUTIA := mk_MINUTIA 20 20 0 (9 # 10) 1.
Definition crowded_minutiae : list MINUTIA := replicate 200 low_minutia ++ [high_minutia].

(** A list of 201 records whose last one is not a dictionary. *)
Definition crowded_records : list PyObject :=
  replicate 200 (minutia_record 10 20 30) ++ [PyNone].

(** * Properties *)

(** ** The embedding evaluated *)

Example to_int_wraps : to_int (2 ^ 31) = - 2 ^ 31.
Proof. reflexivity. Qed.

Example float_array_not_converted :
  py_to_image_data (PyArray (mk_ndarray NPY_FLOAT64 [2; 2] [0; 0; 0; 0]))
  = inl (PyExc_ValueError "Failed to convert image to uint8 array").
Proof. reflexivity. Qed.

Example flat_array_rejected :
  py_to_image_data (PyArray (mk_ndarray NPY_UINT8 [4] [0; 0; 0; 0]))
  = inl (PyExc_ValueError "Image must be 2D grayscale").
Proof. reflexivity. Qed.

Example leading_minutiae_kept :
  minutiae_to_xyt [low_minutia; low_minutia; high_minutia] 2
  = mk_xyt 2 [10; 10] [10; 10] [0; 0].
Proof. reflexivity. Qed.

Example most_reliable_is_stable :
  m_x <$> most_reliable 3
            [mk_MINUTIA 0 0 0 (1 # 2) 1; mk_MINUTIA 1 0 0 (9 # 10) 1;
             mk_MINUTIA 2 0 0 (1 # 2) 1; mk_MINUTIA 3 0 0 (9 # 10) 1]
  = [1; 3; 0].
Proof. reflexivity. Qed.

Example set_matched_with_itself :
  nbis_match_xyt SpecEngines.sample_library (initial_globals SpecEngines.sample_library)
    (PyList sample_set) (PyList sample_set) = Py_Return (PyLong 3).
Proof. vm_compute. reflexivity. Qed.

Example non_list_argument_rejected :
  nbis_match_xyt SpecEngines.sample_library (initial_globals SpecEngines.sample_library)
    PyNone (PyList sample_set)
  = Py_Raise (PyExc_TypeError "Both arguments must be lists of minutiae").
Proof. reflexivity. Qed.

(** A coordinate that is not an int is read as -1 and leaves the error of
    [PyLong_AsLong] set beside the score. *)
Example non_int_coordinate_leaves_error :
  nbis_match_xyt SpecEngines.sample_library (initial_globals SpecEngines.sample_library)
    (PyList [PyDict (<["x" := PyFloat 1]> (<["y" := PyLong 2]> (<["direction" := PyLong 3]> ∅)))])
    (PyList [])
  = Py_ReturnWithErrorSet (PyLong 0) (PyExc_TypeError "an integer is required").
Proof. vm_compute. reflexivity. Qed.

(** The sample image: eight ridge endings along the left edge of the dark
    band, and a quality of class 1. *)
Example sample_image_minutiae :
  (fun m => (m_x m, m_y m)) <$>
    lfs_minutiae (lfs_detect_minutiae_V2 SpecEngines.sample_library sample_pixels 16 8
                    (lfsparms_V2 SpecEngines.sample_library))
  = [(4, 0); (4, 1); (4, 2); (4, 3); (4, 4); (4, 5); (4, 6); (4, 7)].
Proof. vm_compute. reflexivity. Qed.

Example sample_image_quality :
  comp_nfiq SpecEngines.sample_library sample_pixels 16 8 8 500 = mk_nfiq_output 0 1 1.
Proof. vm_compute. reflexivity. Qed.

Example module_initialised_once :
  PyInit__nbis_ext (PyInit__nbis_ext (initial_globals SpecEngines.sample_library))
  = PyInit__nbis_ext (initial_globals SpecEngines.sample_library).
Proof. reflexivity. Qed.

(** ** Integers and argument parsing *)

Lemma to_int_id (z : Z) : INT_MIN <= z <= INT_MAX -> to_int z = z.
Proof.
  unfold INT_MIN, INT_MAX, to_int, wrap_signed. intros Hz.
  change (2 ^ (32 - 1)) with 2147483648. change (2 ^ 32) with 4294967296.
  change (2 ^ 31) with 2147483648 in Hz.
  rewrite Z.mod_small; lia.
Qed.

Lemma to_size_t_id (z : Z) : 0 <= z <= INT_MAX -> to_size_t z = z.
Proof.
  unfold INT_MAX, to_size_t. change (2 ^ 31) with 2147483648.
  change (2 ^ 64) with 18446744073709551616. intros Hz.
  apply Z.mod_small. lia.
Qed.

Lemma valid_ppi_parses (default : Z) (arg : option PyObject) :
  valid_ppi arg = true -> exists ppi, parse_optional_int default arg = inr ppi.
Proof.
  destruct arg as [o|]; simpl; [|eauto].
  destruct o; try discriminate. intros ->. eauto.
Qed.

(** A well-formed image is copied whole, with its own dimensions. *)
Lemma py_to_image_data_valid (a : ndarray) (W H : Z) :
  valid_image a W H ->
  py_to_image_data (PyArray a) = inr (mk_image_data (adata a) W H 8).
Proof.
  intros (Hty & Hdims & HW & HH & Hsz & Hlen & _).
  unfold py_to_image_data, PyArray_FROM_OTF_UINT8. rewrite Hty, Hdims. simpl.
  assert (Hmin : INT_MIN <= 0) by (unfold INT_MIN; lia).
  rewrite (to_int_id W), (to_int_id H) by lia.
  rewrite (to_int_id (W * H)) by nia.
  rewrite to_size_t_id by nia.
  rewrite take_ge by lia. reflexivity.
Qed.

(** The shape [(H, W, 1)] passes the shape test as [(H, W)] does, and no
    other three-dimensional shape passes. *)
Lemma grayscale_dims_channel (H W : Z) :
  grayscale_dims [H; W; 1] = grayscale_dims [H; W].
Proof. reflexivity. Qed.

Lemma grayscale_dims_reject (H W C : Z) : C <> 1 -> grayscale_dims [H; W; C] = None.
Proof. intros HC. simpl. destruct (Z.eqb_spec C 1); [contradiction | reflexivity]. Qed.

Lemma py_to_image_data_channel (H W : Z) (px : list Z) :
  py_to_image_data (PyArray (mk_ndarray NPY_UINT8 [H; W; 1] px))
  = py_to_image_data (PyArray (mk_ndarray NPY_UINT8 [H; W] px)).
Proof. reflexivity. Qed.

Lemma py_to_image_data_reject (H W C : Z) (px : list Z) :
  C <> 1 ->
  py_to_image_data (PyArray (mk_ndarray NPY_UINT8 [H; W; C] px))
  = inl (PyExc_ValueError "Image must be 2D grayscale").
Proof.
  intros HC. unfold py_to_image_data. simpl.
  destruct (Z.eqb_spec C 1); [contradiction | reflexivity].
Qed.

(** ** Claims settled on the extension, for every library *)

Section ExtensionFacts.

Context (nbis : nbis_library).

(** C9. The result of [nbis_extract_minutiae] does not depend on [ppi]:
    for every image object and any two accepted [ppi] arguments (absent,
    or an int in the range of C [int]) the two calls return the same
    value, minutiae list and binarized image alike, since detection
    always runs with [lfsparms_V2]. *)
Theorem extract_minutiae_ignores_ppi (image_obj : PyObject) (p1 p2 : option PyObject) :
  valid_ppi p1 = true -> valid_ppi p2 = true ->
  nbis_extract_minutiae nbis image_obj p1 = nbis_extract_minutiae nbis image_obj p2.
Proof.
  intros H1 H2. unfold nbis_extract_minutiae.
  destruct (valid_ppi_parses (DEFAULT_PPI nbis) p1 H1) as [n1 ->].
  destruct (valid_ppi_parses (DEFAULT_PPI nbis) p2 H2) as [n2 ->].
  reflexivity.
Qed.

(** C10. For every pixel buffer, the [uint8] array of shape [(H, W, 1)]
    gives, at each of the three entry points that take an image, exactly
    the result of the array of shape [(H, W)] with the same pixels; an
    array of shape [(H, W, C)] with [C <> 1] is rejected with an error
    by each of them, whatever the engines are.  The array of shape
    [(H, W, 1)] is accepted: when the pixels make a well-formed [W] by [H]
    image it is converted to the whole buffer with width [W], height [H]
    and depth 8, and each entry point returns a result exactly when its
    engine, run on that buffer, does not fail. *)
Theorem single_channel_3d_as_2d (g : nbis_globals) (H W C : Z) (px : list Z)
    (ppi : option PyObject) (other : PyObject) :
  C <> 1 ->
  let a2 := PyArray (mk_ndarray NPY_UINT8 [H; W] px) in
  let a3 := PyArray (mk_ndarray NPY_UINT8 [H; W; 1] px) in
  let bad := PyArray (mk_ndarray NPY_UINT8 [H; W; C] px) in
  (nbis_extract_minutiae nbis a3 ppi = nbis_extract_minutiae nbis a2 ppi /\
   nbis_compute_nfiq nbis a3 ppi = nbis_compute_nfiq nbis a2 ppi /\
   nbis_match_fingerprints nbis g a3 other = nbis_match_fingerprints nbis g a2 other /\
   nbis_match_fingerprints nbis g other a3 = nbis_match_fingerprints nbis g other a2) /\
  (is_raise (nbis_extract_minutiae nbis bad ppi) /\
   is_raise (nbis_compute_nfiq nbis bad ppi) /\
   is_raise (nbis_match_fingerprints nbis g bad other) /\
   is_raise (nbis_match_fingerprints nbis g other bad)) /\
  (valid_image (mk_ndarray NPY_UINT8 [H; W] px) W H -> valid_ppi ppi = true ->
   py_to_image_data a3 = inr (mk_image_data px W H 8) /\
   (yields_result (nbis_extract_minutiae nbis a3 ppi) <->
    lfs_ret (lfs_detect_minutiae_V2 nbis px W H (lfsparms_V2 nbis)) = 0) /\
   (forall n : Z, parse_optional_int (DEFAULT_PPI nbis) ppi = inr n ->
      (yields_result (nbis_compute_nfiq nbis a3 ppi) <->
       0 <= nfiq_ret (comp_nfiq nbis px W H 8 n))) /\
   (yields_result (nbis_match_fingerprints nbis g a3 a3) <->
    lfs_ret (lfs_detect_minutiae_V2 nbis px W H (lfsparms_V2 nbis)) = 0)).
Proof.
  intros HC a2 a3 bad. split; [|split].
  - unfold nbis_extract_minutiae, nbis_compute_nfiq, nbis_match_fingerprints.
    subst a2 a3. rewrite !py_to_image_data_channel. auto.
  - unfold nbis_extract_minutiae, nbis_compute_nfiq, nbis_match_fingerprints.
    subst bad. rewrite !(py_to_image_data_reject H W C px HC).
    repeat split.
    + destruct (parse_optional_int _ ppi); eexists; reflexivity.
    + destruct (parse_optional_int _ ppi); eexists; reflexivity.
    + destruct (py_to_image_data other); eexists; reflexivity.
    + destruct (py_to_image_data other); eexists; reflexivity.
  - intros Hv Hp.
    assert (Hconv : py_to_image_data a3 = inr (mk_image_data px W H 8)).
    { subst a3. rewrite py_to_image_data_channel.
      apply (py_to_image_data_valid (mk_ndarray NPY_UINT8 [H; W] px) W H Hv). }
    split; [exact Hconv|].
    destruct (valid_ppi_parses (DEFAULT_PPI nbis) ppi Hp) as [m Hm].
    unfold nbis_extract_minutiae, nbis_compute_nfiq, nbis_match_fingerprints.
    rewrite Hconv, Hm. cbn [img_data img_width img_height img_depth].
    split; [|split].
    + destruct (Z.eqb_spec (lfs_ret (lfs_detect_minutiae_V2 nbis px W H (lfsparms_V2 nbis))) 0)
        as [Hz|Hnz]; cbn [negb].
      * split; [intros _; exact Hz | intros _; eexists; reflexivity].
      * split; [intros [v Hr]; discriminate | intros Hz; contradiction].
    + intros n [= <-].
      destruct (Z.ltb_spec (nfiq_ret (comp_nfiq nbis px W H 8 m)) 0) as [Hneg|Hnn].
      * split; [intros [v Hr]; discriminate | intros Hz; lia].
      * split; [intros _; exact Hnn | intros _; eexists; reflexivity].
    + destruct (Z.eqb_spec (lfs_ret (lfs_detect_minutiae_V2 nbis px W H (lfsparms_V2 nbis))) 0)
        as [Hz|Hnz]; cbn [negb].
      * split; [intros _; exact Hz | intros _; eexists; reflexivity].
      * split; [intros [v Hr]; discriminate | intros Hz; contradiction].
Qed.

(** C3. For every well-formed image and accepted [ppi], the quality
    scorer's outcome follows the return code of the underlying
    computation: on code 0 (Success) and on a positive code
    (AlgorithmicCondition, the degenerate inputs) it returns the class,
    the confidence and the code; it fails, with no result, exactly when
    the code is negative (SystemFailure). *)
Theorem compute_nfiq_three_tiers (a : ndarray) (W H : Z) (ppi_arg : option PyObject) :
  valid_image a W H -> valid_ppi ppi_arg = true ->
  exists ppi,
    parse_optional_int (DEFAULT_PPI nbis) ppi_arg = inr ppi /\
    let out := comp_nfiq nbis (adata a) W H 8 ppi in
    let r := nbis_compute_nfiq nbis (PyArray a) ppi_arg in
    match status_of_return_code (nfiq_ret out) with
    | Success => nfiq_ret out = 0 /\ r = Py_Return (quality_dict out)
    | AlgorithmicCondition => 0 < nfiq_ret out /\ r = Py_Return (quality_dict out)
    | SystemFailure =>
        nfiq_ret out < 0 /\ r = Py_Raise (PyExc_RuntimeError "NFIQ computation failed")
    end /\
    (is_raise r <-> nfiq_ret out < 0).
Proof.
  intros Hv Hp. destruct (valid_ppi_parses (DEFAULT_PPI nbis) ppi_arg Hp) as [ppi Hppi].
  exists ppi. split; [exact Hppi|]. intros out r.
  assert (Hr : r = if nfiq_ret out <? 0
                   then Py_Raise (PyExc_RuntimeError "NFIQ computation failed")
                   else Py_Return (quality_dict out)).
  { subst r out. unfold nbis_compute_nfiq.
    rewrite Hppi, (py_to_image_data_valid a W H Hv). reflexivity. }
  unfold status_of_return_code. rewrite Hr.
  destruct (Z.ltb_spec (nfiq_ret out) 0) as [Hneg|Hnn].
  - split; [split; [lia | reflexivity]|]. split; [tauto | intros _; eexists; reflexivity].
  - destruct (Z.eqb_spec (nfiq_ret out) 0) as [Hz|Hnz].
    + split; [split; [lia | reflexivity]|]. split; [intros [e He]; discriminate | lia].
    + split; [split; [lia | reflexivity]|]. split; [intros [e He]; discriminate | lia].
Qed.

(** *** The cap on the number of minutiae *)

Lemma capped_take {A} (cap : Z) (l : list A) :
  take (Z.to_nat (if cap <? Z.of_nat (length l) then cap else Z.of_nat (length l))) l
  = take (Z.to_nat cap) l.
Proof.
  destruct (Z.ltb_spec cap (Z.of_nat (length l))); [reflexivity|].
  rewrite !take_ge by lia. reflexivity.
Qed.

Lemma capped_count_take {A} (cap : Z) (l : list A) :
  (if cap <? Z.of_nat (length (take (Z.to_nat cap) l))
   then cap else Z.of_nat (length (take (Z.to_nat cap) l)))
  = (if cap <? Z.of_nat (length l) then cap else Z.of_nat (length l)).
Proof.
  rewrite length_take.
  destruct (Z.ltb_spec cap (Z.of_nat (length l)));
    destruct (Z.ltb_spec cap (Z.of_nat (Z.to_nat cap `min` length l))); lia.
Qed.

(** Records of the expected shape parse, and leave no error set. *)
Lemma parse_minutiae_records (items : list PyObject) (err : option PyExc) :
  forallb is_minutia_record items = true ->
  exists rows, parse_minutiae items err = inr (rows, err) /\ length rows = length items.
Proof.
  induction items as [|item rest IH]; simpl; intros Hall.
  - exists []. split; reflexivity.
  - apply andb_prop in Hall as [Hitem Hrest].
    destruct item; try discriminate. simpl in Hitem.
    destruct (d !! "x") as [x_obj|]; [|discriminate].
    destruct (d !! "y") as [y_obj|]; [|discriminate].
    destruct (d !! "direction") as [t_obj|]; [|discriminate].
    apply andb_prop in Hitem as [Hxy Ht]. apply andb_prop in Hxy as [Hx Hy].
    destruct x_obj; try discriminate. destruct y_obj; try discriminate.
    destruct t_obj; try discriminate. simpl in Hx, Hy, Ht. simpl.
    rewrite Hx, Hy, Ht. simpl.
    destruct (IH Hrest) as (rows & -> & Hlen).
    eexists. split; [reflexivity|]. simpl. rewrite Hlen. reflexivity.
Qed.

(** The parsing loop raises nothing but the two input errors. *)
Lemma parse_minutiae_raises (items : list PyObject) (err : option PyExc) (e : PyExc) :
  parse_minutiae items err = inl e -> invalid_input e.
Proof.
  revert err. induction items as [|item rest IH]; simpl; intros err Hp; [discriminate|].
  destruct item; try (injection Hp as <-; left; reflexivity).
  destruct (d !! "x") as [x_obj|]; [|injection Hp as <-; right; reflexivity].
  destruct (d !! "y") as [y_obj|]; [|injection Hp as <-; right; reflexivity].
  destruct (d !! "direction") as [t_obj|]; [|injection Hp as <-; right; reflexivity].
  destruct (PyLong_AsLong x_obj) as [x ex], (PyLong_AsLong y_obj) as [y ey],
    (PyLong_AsLong t_obj) as [t et].
  match type of Hp with context [parse_minutiae rest ?err'] =>
    destruct (parse_minutiae rest err') as [e'|[rows err'']] eqn:Hrest end;
    [|discriminate].
  injection Hp as <-. eapply IH, Hrest.
Qed.

(** A malformed record among the visited items stops the loop. *)
Lemma parse_minutiae_malformed (items : list PyObject) (err : option PyExc) :
  existsb malformed_record items = true ->
  exists e, parse_minutiae items err = inl e.
Proof.
  revert err. induction items as [|item rest IH]; simpl; intros err Hex; [discriminate|].
  destruct item; try (eexists; reflexivity).
  simpl in Hex.
  destruct (d !! "x") as [x_obj|]; [|eexists; reflexivity].
  destruct (d !! "y") as [y_obj|]; [|eexists; reflexivity].
  destruct (d !! "direction") as [t_obj|]; [|eexists; reflexivity].
  simpl in Hex.
  destruct (PyLong_AsLong x_obj) as [x ex], (PyLong_AsLong y_obj) as [y ey],
    (PyLong_AsLong t_obj) as [t et].
  match goal with |- context [parse_minutiae rest ?err'] =>
    destruct (IH err' Hex) as [e ->] end.
  eexists; reflexivity.
Qed.

(** One turn of a parsing loop on a dictionary that has the three keys. *)
Lemma parse_minutiae_step (d : gmap string PyObject) (x_obj y_obj t_obj : PyObject)
    (rest : list PyObject) (err : option PyExc) :
  d !! "x" = Some x_obj -> d !! "y" = Some y_obj -> d !! "direction" = Some t_obj ->
  parse_minutiae (PyDict d :: rest) err
  = match parse_minutiae rest
            (from_option Some
               (from_option Some (from_option Some err (PyLong_AsLong x_obj).2)
                  (PyLong_AsLong y_obj).2)
               (PyLong_AsLong t_obj).2) with
    | inl e => inl e
    | inr (rows, err') =>
        inr ((to_int (PyLong_AsLong x_obj).1, to_int (PyLong_AsLong y_obj).1,
              to_int (PyLong_AsLong t_obj).1) :: rows, err')
    end.
Proof.
  intros Hx Hy Ht. simpl. rewrite Hx, Hy, Ht.
  destruct (PyLong_AsLong x_obj), (PyLong_AsLong y_obj), (PyLong_AsLong t_obj). reflexivity.
Qed.

(** Records of the expected shape are read as their three fields, in
    order. *)
Lemma parse_minutiae_rows (items : list PyObject) (err : option PyExc) :
  forallb is_minutia_record items = true ->
  parse_minutiae items err
  = inr ((fun o => (record_field "x" o, record_field "y" o, record_field "direction" o))
           <$> items, err).
Proof.
  revert err. induction items as [|item rest IH]; intros err Hall; [reflexivity|].
  cbn [forallb] in Hall. apply andb_prop in Hall as [Hitem Hrest].
  destruct item; try discriminate. cbn [is_minutia_record] in Hitem.
  destruct (d !! "x") as [x_obj|] eqn:Hx; [|discriminate].
  destruct (d !! "y") as [y_obj|] eqn:Hy; [|discriminate].
  destruct (d !! "direction") as [t_obj|] eqn:Ht; [|discriminate].
  apply andb_prop in Hitem as [Hxy Hft]. apply andb_prop in Hxy as [Hfx Hfy].
  destruct x_obj; try discriminate. destruct y_obj; try discriminate.
  destruct t_obj; try discriminate. cbn [fits_long] in Hfx, Hfy, Hft.
  rewrite fmap_cons, (parse_minutiae_step d _ _ _ rest err Hx Hy Ht).
  cbn [record_field]. rewrite Hx, Hy, Ht. cbn [PyLong_AsLong].
  rewrite Hfx, Hfy, Hft. cbn [fst snd from_option].
  rewrite (IH err Hrest). reflexivity.
Qed.

(** [nbis_match_xyt] sees only the first [MAX_BOZORTH_MINUTIAE] records
    of each list. *)
Lemma nbis_match_xyt_prefix (g : nbis_globals) (probe gallery : list PyObject) :
  let n := Z.to_nat (MAX_BOZORTH_MINUTIAE nbis) in
  nbis_match_xyt nbis g (PyList probe) (PyList gallery)
  = nbis_match_xyt nbis g (PyList (take n probe)) (PyList (take n gallery)).
Proof.
  intros n. subst n. unfold nbis_match_xyt.
  rewrite !capped_take, !capped_count_take, !take_take, !Nat.min_id. reflexivity.
Qed.

(** C2, as amended.  A list with more than N entries (N the cap
    [MAX_BOZORTH_MINUTIAE]) is cut to exactly N entries on both matching
    paths, and the entries kept are the first N in list order, whatever
    their reliability.  [minutiae_to_xyt] fills N rows from the first N
    minutiae.  [nbis_match_xyt] returns what it returns on the first N
    records of each list; when those are well formed it raises nothing
    for exceeding the cap and returns the score of [bz_match_score] on
    the two structures whose [nrows] is [min(N, length)], N for a list
    longer than N, and whose rows are the [x], [y] and [direction] of the
    first N records in list order. *)
Theorem truncation_keeps_leading_entries (g : nbis_globals) (l : list MINUTIA)
    (probe gallery : list PyObject) :
  let cap := MAX_BOZORTH_MINUTIAE nbis in
  let n := Z.to_nat cap in
  0 <= cap -> cap < Z.of_nat (length l) ->
  (minutiae_to_xyt l cap
     = mk_xyt cap (m_x <$> take n l) (m_y <$> take n l) (m_direction <$> take n l)
   /\ length (take n l) = n) /\
  nbis_match_xyt nbis g (PyList probe) (PyList gallery)
    = nbis_match_xyt nbis g (PyList (take n probe)) (PyList (take n gallery)) /\
  (forallb is_minutia_record (take n probe) = true ->
   forallb is_minutia_record (take n gallery) = true ->
   nbis_match_xyt nbis g (PyList probe) (PyList gallery)
   = Py_Return (PyLong (bz_match_score nbis g (DEFAULT_BOZORTH_MINUTIAE nbis)
       (mk_xyt (Z.min cap (Z.of_nat (length probe)))
               (record_field "x" <$> take n probe) (record_field "y" <$> take n probe)
               (record_field "direction" <$> take n probe))
       (mk_xyt (Z.min cap (Z.of_nat (length gallery)))
               (record_field "x" <$> take n gallery) (record_field "y" <$> take n gallery)
               (record_field "direction" <$> take n gallery))))) /\
  (cap < Z.of_nat (length probe) ->
   Z.min cap (Z.of_nat (length probe)) = cap /\ length (take n probe) = n) /\
  (cap < Z.of_nat (length gallery) ->
   Z.min cap (Z.of_nat (length gallery)) = cap /\ length (take n gallery) = n).
Proof.
  intros cap n Hcap Hlen. split; [|split; [|split; [|split]]].
  - split.
    + unfold minutiae_to_xyt.
      destruct (Z.ltb_spec (Z.of_nat (length l)) cap); [lia | reflexivity].
    + rewrite length_take. subst n. lia.
  - apply nbis_match_xyt_prefix.
  - intros Hp Hg. unfold nbis_match_xyt.
    rewrite !capped_take. fold cap. fold n.
    rewrite (parse_minutiae_rows (take n probe) None Hp).
    rewrite (parse_minutiae_rows (take n gallery) None Hg).
    unfold xyt_of_rows. rewrite <- !list_fmap_compose.
    replace (if cap <? Z.of_nat (length probe) then cap else Z.of_nat (length probe))
      with (Z.min cap (Z.of_nat (length probe)))
      by (destruct (Z.ltb_spec cap (Z.of_nat (length probe))); lia).
    replace (if cap <? Z.of_nat (length gallery) then cap else Z.of_nat (length gallery))
      with (Z.min cap (Z.of_nat (length gallery)))
      by (destruct (Z.ltb_spec cap (Z.of_nat (length gallery))); lia).
    reflexivity.
  - intros Hlong. rewrite length_take. subst n. lia.
  - intros Hlong. rewrite length_take. subst n. lia.
Qed.

(** C6, as amended.  When a record among the first N of the probe list
    or the first N of the gallery list (N the cap
    [MAX_BOZORTH_MINUTIAE]) is malformed, not a dictionary or lacking one
    of the keys x, y, direction, [nbis_match_xyt] raises the [TypeError]
    or the [ValueError] of its parsing loops and returns no score. *)
Theorem malformed_record_within_cap_raises (g : nbis_globals)
    (probe gallery : list PyObject) :
  let n := Z.to_nat (MAX_BOZORTH_MINUTIAE nbis) in
  existsb malformed_record (take n probe) || existsb malformed_record (take n gallery) = true ->
  exists e, nbis_match_xyt nbis g (PyList probe) (PyList gallery) = Py_Raise e
            /\ invalid_input e.
Proof.
  intros n Hbad. unfold nbis_match_xyt. rewrite !capped_take. fold n.
  destruct (parse_minutiae (take n probe) None) as [e|[prows err1]] eqn:Hprobe.
  - exists e. split; [reflexivity|]. eapply parse_minutiae_raises, Hprobe.
  - apply orb_prop in Hbad as [Hp|Hg].
    + destruct (parse_minutiae_malformed _ None Hp) as [e He]. congruence.
    + destruct (parse_minutiae_malformed _ err1 Hg) as [e He]. rewrite He.
      exists e. split; [reflexivity|]. eapply parse_minutiae_raises, He.
Qed.

End ExtensionFacts.

(** ** Claims settled on the engines modelled from the specification *)

Lemma list_prod_nil_r {A B} (l : list A) : list_prod l (@nil B) = [].
Proof. induction l as [|a l IH]; simpl; [reflexivity | exact IH]. Qed.

Lemma filter_all_false {A} (f : A -> bool) (l : list A) :
  (forall x, f x = false) -> List.filter f l = [].
Proof.
  intros Hf. induction l as [|a l IH]; simpl; [reflexivity|].
  rewrite Hf. exact IH.
Qed.

Lemma forallb_take {A} (f : A -> bool) (n : nat) (l : list A) :
  forallb f l = true -> forallb f (take n l) = true.
Proof.
  revert n. induction l as [|a l IH]; intros [|n]; simpl; try reflexivity.
  intros Hall. apply andb_prop in Hall as [Ha Hl].
  rewrite Ha, (IH n Hl). reflexivity.
Qed.

(** On records of the expected shape [nbis_match_xyt] returns the score
    of the matcher on the rows read, no more than the lists hold. *)
Lemma nbis_match_xyt_records (nbis : nbis_library) (g : nbis_globals)
    (probe gallery : list PyObject) :
  forallb is_minutia_record probe = true ->
  forallb is_minutia_record gallery = true ->
  exists (pc gc : Z) (prows grows : list (Z * Z * Z)),
    (length prows <= length probe)%nat /\ (length grows <= length gallery)%nat /\
    nbis_match_xyt nbis g (PyList probe) (PyList gallery)
    = Py_Return (PyLong (bz_match_score nbis g (DEFAULT_BOZORTH_MINUTIAE nbis)
                           (xyt_of_rows pc prows) (xyt_of_rows gc grows))).
Proof.
  intros Hp Hg. unfold nbis_match_xyt. rewrite !capped_take.
  set (n := Z.to_nat (MAX_BOZORTH_MINUTIAE nbis)).
  destruct (parse_minutiae_records (take n probe) None (forallb_take _ n _ Hp))
    as (prows & -> & Hpl).
  destruct (parse_minutiae_records (take n gallery) None (forallb_take _ n _ Hg))
    as (grows & -> & Hgl).
  do 2 eexists. exists prows, grows. split; [|split; [|reflexivity]].
  - rewrite Hpl, length_take. lia.
  - rewrite Hgl, length_take. lia.
Qed.

(** The fields of the library of modelled engines. *)
Lemma spec_library_hdr (sp : SpecEngines.spec_parameters) (hdr : nbis_headers) :
  nbis_hdr (SpecEngines.spec_library sp hdr) = hdr.
Proof. reflexivity. Qed.

Lemma spec_library_detect (sp : SpecEngines.spec_parameters) (hdr : nbis_headers) :
  lfs_detect_minutiae_V2 (SpecEngines.spec_library sp hdr)
  = SpecEngines.lfs_detect_minutiae_V2 sp hdr.
Proof. reflexivity. Qed.

Lemma spec_library_nfiq (sp : SpecEngines.spec_parameters) (hdr : nbis_headers) :
  comp_nfiq (SpecEngines.spec_library sp hdr) = SpecEngines.comp_nfiq sp hdr.
Proof. reflexivity. Qed.

Lemma spec_library_match (sp : SpecEngines.spec_parameters) (hdr : nbis_headers) :
  bz_match_score (SpecEngines.spec_library sp hdr) = SpecEngines.bz_match_score sp.
Proof. reflexivity. Qed.

Section SpecFacts.

Import SpecEngines.

Context (sp : spec_parameters) (hdr : nbis_headers).

(** *** Matcher *)

Lemma xyt_points_length (np count : Z) (rows : list (Z * Z * Z)) :
  (length (xyt_points np (xyt_of_rows count rows)) <= length rows)%nat.
Proof.
  unfold xyt_points, xyt_of_rows, point. cbn [nrows xcol ycol thetacol].
  rewrite !length_take, !length_zip, !length_fmap. lia.
Qed.

(** A set of at most one minutia has no pairwise relation. *)
Lemma relation_table_short (pts : list point) :
  (length pts <= 1)%nat -> relation_table sp pts = [].
Proof.
  destruct pts as [|a [|b rest]]; simpl; intros Hlen; [reflexivity | reflexivity | lia].
Qed.

Lemma no_neighbours_no_candidate (tg : list (nat * nat * (Z * Z))) (i k : nat) :
  has_compatible_neighbours sp [] tg i k = false.
Proof. reflexivity. Qed.

(** The score is 0 when a set is empty and when both sets hold a single
    minutia. *)
Lemma match_score_few (P G : list point) :
  P = [] \/ G = [] \/ ((length P <= 1)%nat /\ (length G <= 1)%nat) ->
  match_score sp P G = 0.
Proof.
  intros Hfew.
  assert (Hc : candidates sp P G = []).
  { unfold candidates. cbv zeta. destruct Hfew as [-> | [-> | [HP HG]]].
    - reflexivity.
    - change (indexed []) with (@nil (nat * point)).
      rewrite list_prod_nil_r. reflexivity.
    - rewrite (relation_table_short P HP). apply filter_all_false.
      intros c. apply no_neighbours_no_candidate. }
  unfold match_score. rewrite Hc. reflexivity.
Qed.

(** C1. With the matcher of section 4.3, [nbis_match_xyt] returns score 0
    for every minutiae set [S] matched against the empty set, in either
    order, and for every pair of single-minutia sets, whatever their
    coordinates and directions. *)
Theorem match_empty_or_single_scores_zero (g : nbis_globals) (S : list PyObject)
    (r1 r2 : PyObject) :
  forallb is_minutia_record S = true ->
  is_minutia_record r1 = true -> is_minutia_record r2 = true ->
  nbis_match_xyt (spec_library sp hdr) g (PyList []) (PyList S) = Py_Return (PyLong 0) /\
  nbis_match_xyt (spec_library sp hdr) g (PyList S) (PyList []) = Py_Return (PyLong 0) /\
  nbis_match_xyt (spec_library sp hdr) g (PyList [r1]) (PyList [r2]) = Py_Return (PyLong 0).
Proof.
  intros HS H1 H2.
  assert (Hnil : forallb is_minutia_record [] = true) by reflexivity.
  assert (Hs1 : forallb is_minutia_record [r1] = true) by (simpl; rewrite H1; reflexivity).
  assert (Hs2 : forallb is_minutia_record [r2] = true) by (simpl; rewrite H2; reflexivity).
  split; [|split].
  - destruct (nbis_match_xyt_records (spec_library sp hdr) g [] S Hnil HS)
      as (pc & gc & prows & grows & Hp & _ & ->).
    simpl. unfold bz_match_score. rewrite match_score_few; [reflexivity|].
    left. pose proof (xyt_points_length (DEFAULT_BOZORTH_MINUTIAE hdr) pc prows) as Hl.
    simpl in Hp. apply length_zero_iff_nil. lia.
  - destruct (nbis_match_xyt_records (spec_library sp hdr) g S [] HS Hnil)
      as (pc & gc & prows & grows & _ & Hg & ->).
    simpl. unfold bz_match_score. rewrite match_score_few; [reflexivity|].
    right; left. pose proof (xyt_points_length (DEFAULT_BOZORTH_MINUTIAE hdr) gc grows) as Hl.
    simpl in Hg. apply length_zero_iff_nil. lia.
  - destruct (nbis_match_xyt_records (spec_library sp hdr) g [r1] [r2] Hs1 Hs2)
      as (pc & gc & prows & grows & Hp & Hg & ->).
    simpl. unfold bz_match_score. rewrite match_score_few; [reflexivity|].
    right; right.
    pose proof (xyt_points_length (DEFAULT_BOZORTH_MINUTIAE hdr) pc prows).
    pose proof (xyt_points_length (DEFAULT_BOZORTH_MINUTIAE hdr) gc grows).
    simpl in Hp, Hg. split; lia.
Qed.

(** *** Preprocessor and detector *)

Lemma elem_of_scan (W H : Z) (xy : Z * Z) :
  xy ∈ scan W H <-> (0 <= xy.1 < W /\ 0 <= xy.2 < H).
Proof.
  unfold scan. rewrite list_elem_of_bind. split.
  - intros (y & Hin & Hy). apply list_elem_of_fmap in Hin as (x & -> & Hx).
    apply elem_of_seqZ in Hx, Hy. simpl. lia.
  - intros [Hx Hy]. exists xy.2. split.
    + apply list_elem_of_fmap. exists xy.1. split; [destruct xy; reflexivity|].
      apply elem_of_seqZ. lia.
    + apply elem_of_seqZ. lia.
Qed.

Lemma length_bind_const {A B} (f : A -> list B) (n : nat) (l : list A) :
  (forall a, length (f a) = n) -> length (l ≫= f) = (length l * n)%nat.
Proof.
  intros Hf. induction l as [|a l IH]; csimpl; [reflexivity|].
  rewrite length_app, Hf, IH. reflexivity.
Qed.

Lemma length_scan (W H : Z) : 0 <= W -> 0 <= H -> length (scan W H) = Z.to_nat (W * H).
Proof.
  intros HW HH. unfold scan.
  rewrite (length_bind_const _ (Z.to_nat W)).
  - rewrite length_seqZ, Z2Nat.inj_mul by lia. lia.
  - intros y. rewrite length_fmap, length_seqZ. reflexivity.
Qed.

(** The binarized image has one value per pixel, each 0 or 255. *)
Lemma binarize_length (parms : LFSPARMS) (img : list Z) (W H : Z) :
  0 <= W -> 0 <= H -> length (binarize sp parms img W H) = Z.to_nat (W * H).
Proof. intros HW HH. unfold binarize. rewrite length_fmap. apply length_scan; assumption. Qed.

Lemma binarize_two_valued (parms : LFSPARMS) (img : list Z) (W H : Z) :
  Forall (fun v => v = 0 \/ v = 255) (binarize sp parms img W H).
Proof.
  unfold binarize. apply Forall_fmap, Forall_forall. intros xy _. simpl.
  destruct (_ && _); [left | right]; reflexivity.
Qed.

Lemma clamp01_range (q : Q) : (0 <= clamp01 q)%Q /\ (clamp01 q <= 1)%Q.
Proof.
  unfold clamp01.
  destruct (Qle_bool q 0) eqn:H0; [split; [apply Qle_refl | discriminate]|].
  destruct (Qle_bool 1 q) eqn:H1; [split; [discriminate | apply Qle_refl]|].
  split; apply Qlt_le_weak, Qnot_le_lt; intros Hle; apply Qle_bool_iff in Hle; congruence.
Qed.

(** Every detected minutia sits on a pixel of the image, with a
    reliability in [0, 1] and one of the two type codes. *)
Lemma detect_in_bounds (parms : LFSPARMS) (img : list Z) (W H : Z) (m : MINUTIA) :
  m ∈ detect sp hdr parms img W H ->
  0 <= m_x m < W /\ 0 <= m_y m < H /\
  (0 <= m_reliability m)%Q /\ (m_reliability m <= 1)%Q /\
  (m_type m = RIDGE_ENDING hdr \/ m_type m = BIFURCATION sp).
Proof.
  unfold detect. cbv zeta. intros Hm. apply list_elem_of_omap in Hm as (xy & Hxy & Hat).
  apply elem_of_scan in Hxy as [Hx Hy]. unfold minutia_at in Hat.
  destruct (pixel_valid sp parms img W H xy); [|discriminate].
  destruct (ridge_pattern sp _ W H xy.1 xy.2) as [t|]; [|discriminate].
  injection Hat as <-. simpl.
  repeat split; try lia; try apply clamp01_range.
  destruct t; [left | right]; reflexivity.
Qed.

(** *** Textureless images *)

Lemma foldr_max_in (p : Z) (rest : list Z) : foldr Z.max p rest ∈ p :: rest.
Proof.
  induction rest as [|a rest IH]; simpl; [left|].
  destruct (Z.max_spec a (foldr Z.max p rest)) as [[_ ->]|[_ ->]].
  - apply elem_of_cons in IH as [->|IH]; [left | right; right; exact IH].
  - right; left.
Qed.

Lemma foldr_min_in (p : Z) (rest : list Z) : foldr Z.min p rest ∈ p :: rest.
Proof.
  induction rest as [|a rest IH]; simpl; [left|].
  destruct (Z.min_spec a (foldr Z.min p rest)) as [[_ ->]|[_ ->]].
  - right; left.
  - apply elem_of_cons in IH as [->|IH]; [left | right; right; exact IH].
Qed.

Lemma foldr_max_ge (p : Z) (rest : list Z) (x : Z) :
  x ∈ p :: rest -> x <= foldr Z.max p rest.
Proof.
  induction rest as [|a rest IH]; simpl; intros Hx.
  - apply list_elem_of_singleton in Hx. lia.
  - assert (Hrest : x = a \/ x ∈ p :: rest).
    { apply elem_of_cons in Hx as [->|Hx]; [right; left|].
      apply elem_of_cons in Hx as [->|Hx]; [left; reflexivity | right; right; exact Hx]. }
    destruct Hrest as [->|Hin]; [lia | specialize (IH Hin); lia].
Qed.

Lemma foldr_min_le (p : Z) (rest : list Z) (x : Z) :
  x ∈ p :: rest -> foldr Z.min p rest <= x.
Proof.
  induction rest as [|a rest IH]; simpl; intros Hx.
  - apply list_elem_of_singleton in Hx. lia.
  - assert (Hrest : x = a \/ x ∈ p :: rest).
    { apply elem_of_cons in Hx as [->|Hx]; [right; left|].
      apply elem_of_cons in Hx as [->|Hx]; [left; reflexivity | right; right; exact Hx]. }
    destruct Hrest as [->|Hin]; [lia | specialize (IH Hin); lia].
Qed.

Lemma spread_nonneg (l : list Z) : 0 <= spread l.
Proof.
  destruct l as [|p rest]; simpl; [lia|].
  pose proof (foldr_max_ge p rest p ltac:(left)).
  pose proof (foldr_min_le p rest p ltac:(left)). lia.
Qed.

(** The spread of a part of the pixels is at most the spread of all. *)
Lemma spread_subset (l img : list Z) : (forall p, p ∈ l -> p ∈ img) -> spread l <= spread img.
Proof.
  intros Hsub. destruct l as [|p rest]; [apply spread_nonneg|].
  destruct img as [|q more].
  - specialize (Hsub p ltac:(left)). apply elem_of_nil in Hsub. contradiction.
  - simpl.
    pose proof (foldr_max_ge q more _ (Hsub _ (foldr_max_in p rest))).
    pose proof (foldr_min_le q more _ (Hsub _ (foldr_min_in p rest))). lia.
Qed.

Lemma block_pixels_in_image (bs : Z) (img : list Z) (W H bx by_ p : Z) :
  p ∈ block_pixels bs img W H bx by_ -> p ∈ img.
Proof.
  unfold block_pixels, pixel_at. intros Hp.
  apply list_elem_of_omap in Hp as (xy & _ & Hlook).
  eapply list_elem_of_lookup_2, Hlook.
Qed.

(** A textureless image has no valid block, and no more has a small one. *)
Lemma low_contrast_no_valid_pixel (parms : LFSPARMS) (img : list Z) (W H : Z) (xy : Z * Z) :
  low_contrast parms img = true -> pixel_valid sp parms img W H xy = false.
Proof.
  unfold low_contrast, pixel_valid, block_valid. intros Hlow.
  apply N.leb_le in Hlow.
  set (px := block_pixels _ img W H _ _).
  assert (Hs : spread px <= spread img).
  { apply spread_subset. intros p. apply block_pixels_in_image. }
  assert (Hn : (Z.to_N (spread px) <= min_contrast parms)%N) by lia.
  apply N.ltb_ge in Hn. rewrite Hn, andb_false_r. reflexivity.
Qed.

Lemma small_image_no_valid_pixel (parms : LFSPARMS) (img : list Z) (W H : Z) (xy : Z * Z) :
  xy ∈ scan W H -> small_image parms W H = true -> pixel_valid sp parms img W H xy = false.
Proof.
  intros Hxy Hsmall. apply elem_of_scan in Hxy as [Hx Hy].
  unfold pixel_valid, block_valid, block_in_image.
  apply orb_prop in Hsmall as [HW|HH].
  - apply Z.ltb_lt in HW. rewrite (Z.div_small xy.1) by lia.
    destruct (Z.leb_spec ((0 + 1) * blocksize parms) W); [lia|].
    rewrite andb_false_r. reflexivity.
  - apply Z.ltb_lt in HH. rewrite (Z.div_small xy.2) by lia.
    destruct (Z.leb_spec ((0 + 1) * blocksize parms) H); [lia|].
    rewrite !andb_false_r. reflexivity.
Qed.

Lemma degenerate_no_valid_pixel (parms : LFSPARMS) (img : list Z) (W H : Z) (xy : Z * Z) :
  xy ∈ scan W H ->
  small_image parms W H || low_contrast parms img = true ->
  pixel_valid sp parms img W H xy = false.
Proof.
  intros Hxy Hdeg. apply orb_prop in Hdeg as [Hsmall|Hlow].
  - apply small_image_no_valid_pixel; assumption.
  - apply low_contrast_no_valid_pixel; assumption.
Qed.

Lemma omap_all_none {A B} (f : A -> option B) (l : list A) :
  (forall a, a ∈ l -> f a = None) -> omap f l = [].
Proof.
  induction l as [|a l IH]; csimpl; intros Hf; [reflexivity|].
  rewrite (Hf a) by left. apply IH. intros b Hb. apply Hf. right. exact Hb.
Qed.

(** Detection on a small or textureless image finds no minutia, and the
    preprocessor reports the EMPTY_IMAGE condition. *)
Lemma degenerate_detect (parms : LFSPARMS) (img : list Z) (W H : Z) :
  small_image parms W H || low_contrast parms img = true ->
  detect sp hdr parms img W H = [].
Proof.
  intros Hdeg. unfold detect. cbv zeta. apply omap_all_none. intros xy Hxy.
  unfold minutia_at. rewrite (degenerate_no_valid_pixel parms img W H xy Hxy Hdeg).
  reflexivity.
Qed.

Lemma degenerate_empty_image (parms : LFSPARMS) (img : list Z) (W H : Z) :
  small_image parms W H || low_contrast parms img = true ->
  empty_image sp parms img W H = true.
Proof.
  intros Hdeg. unfold empty_image. apply forallb_forall. intros xy Hxy.
  apply list_elem_of_In in Hxy.
  rewrite (degenerate_no_valid_pixel parms img W H xy Hxy Hdeg). reflexivity.
Qed.

Lemma foldr_max_replicate (c : Z) (n : nat) : foldr Z.max c (replicate n c) = c.
Proof.
  induction n as [|n IH]; cbn [foldr replicate]; [reflexivity|].
  rewrite IH. apply Z.max_id.
Qed.

Lemma foldr_min_replicate (c : Z) (n : nat) : foldr Z.min c (replicate n c) = c.
Proof.
  induction n as [|n IH]; cbn [foldr replicate]; [reflexivity|].
  rewrite IH. apply Z.min_id.
Qed.

(** A constant-valued image is textureless for every contrast threshold. *)
Lemma constant_low_contrast (parms : LFSPARMS) (c : Z) (n : nat) :
  low_contrast parms (replicate n c) = true.
Proof.
  unfold low_contrast.
  assert (Hs : spread (replicate n c) = 0).
  { destruct n as [|n]; cbn [spread replicate]; [reflexivity|].
    rewrite foldr_max_replicate, foldr_min_replicate. lia. }
  rewrite Hs. apply N.leb_le. simpl. lia.
Qed.

(** *** The entry points over the modelled engines *)

(** On a well-formed image [nbis_extract_minutiae] returns the detected
    minutiae, their number and the whole binarized image. *)
Lemma extract_minutiae_spec (a : ndarray) (W H : Z) (ppi_arg : option PyObject) :
  valid_image a W H -> valid_ppi ppi_arg = true ->
  nbis_extract_minutiae (spec_library sp hdr) (PyArray a) ppi_arg
  = Py_Return (PyDict
      (<["binarized" := PyArray (mk_ndarray NPY_UINT8 [H; W]
                                   (binarize sp (lfsparms_V2 hdr) (adata a) W H))]>
      (<["count" := PyLong (Z.of_nat (length (detect sp hdr (lfsparms_V2 hdr) (adata a) W H)))]>
      (<["minutiae" := PyList (min_dict (spec_library sp hdr)
                                 <$> detect sp hdr (lfsparms_V2 hdr) (adata a) W H)]> ∅)))).
Proof.
  intros Hv Hp. unfold nbis_extract_minutiae.
  destruct (valid_ppi_parses (DEFAULT_PPI (spec_library sp hdr)) ppi_arg Hp) as [ppi ->].
  rewrite (py_to_image_data_valid a W H Hv).
  destruct Hv as (_ & _ & HW & HH & Hsz & _ & _).
  rewrite spec_library_detect, spec_library_hdr.
  cbn [lfs_detect_minutiae_V2 lfs_ret lfs_minutiae lfs_binarized lfs_bw lfs_bh
       img_data img_width img_height].
  change (negb (0 =? 0)) with false. cbv iota.
  assert (Hmin : INT_MIN <= 0) by (unfold INT_MIN; lia).
  rewrite (to_int_id (W * H)) by nia.
  rewrite to_size_t_id by nia.
  rewrite take_ge by (rewrite binarize_length; lia).
  reflexivity.
Qed.

(** C5. For every well-formed image of width [W] and height [H], every
    record of the list [nbis_extract_minutiae] returns under ["minutiae"]
    has [0 <= x < W] and [0 <= y < H], a reliability (["quality"]) in
    [0, 1], and a type that is one of ridge ending and bifurcation, as a
    code and as a name. *)
Theorem detected_minutiae_in_bounds (a : ndarray) (W H : Z) (ppi_arg : option PyObject) :
  valid_image a W H -> valid_ppi ppi_arg = true ->
  exists (d : gmap string PyObject) (items : list PyObject),
    nbis_extract_minutiae (spec_library sp hdr) (PyArray a) ppi_arg = Py_Return (PyDict d) /\
    d !! "minutiae" = Some (PyList items) /\
    Forall (minutia_record_ok W H (RIDGE_ENDING hdr) (BIFURCATION sp)) items.
Proof.
  intros Hv Hp. rewrite (extract_minutiae_spec a W H ppi_arg Hv Hp).
  eexists _, _. split; [reflexivity|]. split.
  - rewrite !lookup_insert_ne by done. apply lookup_insert_eq.
  - apply Forall_fmap, Forall_forall. intros m Hm.
    apply detect_in_bounds in Hm as (Hx & Hy & Hq0 & Hq1 & Ht).
    unfold minutia_record_ok, min_dict. simpl.
    eexists _, (m_x m), (m_y m), (m_type m), (m_reliability m), _.
    split; [reflexivity|].
    repeat (split; [rewrite ?lookup_insert_ne by done; apply lookup_insert_eq|]).
    repeat (split; [assumption|]).
    destruct (m_type m =? RIDGE_ENDING hdr); [left | right]; reflexivity.
Qed.

(** C8. For every well-formed image, the array [nbis_extract_minutiae]
    returns under ["binarized"] has the shape [(H, W)] of the source, one
    value per pixel, and every value is 0 or 255. *)
Theorem binarized_same_shape_two_valued (a : ndarray) (W H : Z) (ppi_arg : option PyObject) :
  valid_image a W H -> valid_ppi ppi_arg = true ->
  exists (d : gmap string PyObject) (b : ndarray),
    nbis_extract_minutiae (spec_library sp hdr) (PyArray a) ppi_arg = Py_Return (PyDict d) /\
    d !! "binarized" = Some (PyArray b) /\
    dtype b = NPY_UINT8 /\ dims b = dims a /\ dims b = [H; W] /\
    length (adata b) = length (adata a) /\
    Forall (fun v => v = 0 \/ v = 255) (adata b).
Proof.
  intros Hv Hp. rewrite (extract_minutiae_spec a W H ppi_arg Hv Hp).
  destruct Hv as (_ & Hdims & HW & HH & _ & Hlen & _).
  eexists _, _. split; [reflexivity|]. split; [apply lookup_insert_eq|].
  cbn [dtype dims adata]. repeat split.
  - symmetry. exact Hdims.
  - rewrite binarize_length, Hlen by lia. reflexivity.
  - apply binarize_two_valued.
Qed.

(** C4. For every well-formed image that is small (narrower or lower than
    a block) or textureless (the spread of its pixel values within the
    contrast threshold, as for a constant-valued image), under the
    parameters of detection and under those of the quality scorer,
    [nbis_extract_minutiae] raises no error and returns an empty list of
    minutiae, and [nbis_compute_nfiq] returns class 5 with a return code
    that reads as AlgorithmicCondition. *)
Theorem degenerate_image_empty_set_worst_class (a : ndarray) (W H : Z)
    (ppi_arg : option PyObject) (ppi : Z) :
  valid_image a W H ->
  parse_optional_int (DEFAULT_PPI hdr) ppi_arg = inr ppi ->
  small_image (lfsparms_V2 hdr) W H || low_contrast (lfsparms_V2 hdr) (adata a) = true ->
  small_image (parms_of_ppi sp ppi) W H || low_contrast (parms_of_ppi sp ppi) (adata a) = true ->
  (exists d : gmap string PyObject,
     nbis_extract_minutiae (spec_library sp hdr) (PyArray a) ppi_arg = Py_Return (PyDict d) /\
     d !! "minutiae" = Some (PyList []) /\ d !! "count" = Some (PyLong 0)) /\
  (exists (d : gmap string PyObject) (code : Z),
     nbis_compute_nfiq (spec_library sp hdr) (PyArray a) ppi_arg = Py_Return (PyDict d) /\
     d !! "quality" = Some (PyLong 5) /\ d !! "return_code" = Some (PyLong code) /\
     status_of_return_code code = AlgorithmicCondition).
Proof.
  intros Hv Hppi Hdet Hq. split.
  - assert (Hp : valid_ppi ppi_arg = true).
    { destruct ppi_arg as [[]|]; try discriminate; simpl in *; [|reflexivity].
      destruct (_ && _); [reflexivity | discriminate]. }
    rewrite (extract_minutiae_spec a W H ppi_arg Hv Hp).
    rewrite (degenerate_detect _ _ _ _ Hdet).
    eexists. split; [reflexivity|]. split.
    + rewrite !lookup_insert_ne by done. apply lookup_insert_eq.
    + rewrite lookup_insert_ne by done. apply lookup_insert_eq.
  - unfold nbis_compute_nfiq. rewrite spec_library_nfiq, spec_library_hdr, Hppi.
    rewrite (py_to_image_data_valid a W H Hv).
    cbn [img_data img_width img_height img_depth].
    unfold comp_nfiq. cbv zeta. rewrite (degenerate_empty_image _ _ _ _ Hq).
    cbn [nfiq_ret nfiq_value conf_value].
    exists (<["quality" := PyLong WORST_CLASS]>
            (<["confidence" := PyFloat 1]>
            (<["return_code" := PyLong EMPTY_IMG]> ∅))), EMPTY_IMG.
    split; [reflexivity|]. split; [apply lookup_insert_eq|]. split; [|reflexivity].
    rewrite !lookup_insert_ne by done. apply lookup_insert_eq.
Qed.

End SpecFacts.

(** ** The claims on sample inputs *)

Lemma valid_sample_image : valid_image sample_image 16 8.
Proof.
  unfold valid_image, INT_MAX. cbn [dtype dims adata sample_image].
  repeat split; try reflexivity; try (vm_compute; congruence).
Defined.

Lemma valid_constant_image (W H c : Z) :
  0 <= W <= INT_MAX -> 0 <= H <= INT_MAX -> W * H <= INT_MAX -> 0 <= c < 256 ->
  valid_image (constant_image W H c) W H.
Proof.
  intros HW HH Hsz Hc. unfold valid_image, constant_image. cbn [dtype dims adata].
  repeat split; try lia.
  - apply length_replicate.
  - apply forallb_forall. intros p Hp. apply list_elem_of_In, elem_of_replicate in Hp as [-> _].
    destruct (Z.leb_spec 0 c), (Z.ltb_spec c 256); try lia; reflexivity.
Defined.

Lemma extract_minutiae_ignores_ppi_witness :
  nbis_extract_minutiae SpecEngines.sample_library (PyArray sample_image) (Some (PyLong 500))
  = nbis_extract_minutiae SpecEngines.sample_library (PyArray sample_image) (Some (PyLong 1000)).
Proof. apply extract_minutiae_ignores_ppi; reflexivity. Defined.

Lemma single_channel_3d_as_2d_witness :
  nbis_compute_nfiq SpecEngines.sample_library
    (PyArray (mk_ndarray NPY_UINT8 [8; 16; 1] sample_pixels)) None
  = nbis_compute_nfiq SpecEngines.sample_library
      (PyArray (mk_ndarray NPY_UINT8 [8; 16] sample_pixels)) None /\
  is_raise (nbis_extract_minutiae SpecEngines.sample_library
              (PyArray (mk_ndarray NPY_UINT8 [8; 16; 3] sample_pixels)) None) /\
  py_to_image_data (PyArray (mk_ndarray NPY_UINT8 [8; 16; 1] sample_pixels))
  = inr (mk_image_data sample_pixels 16 8 8).
Proof.
  destruct (single_channel_3d_as_2d SpecEngines.sample_library
              (initial_globals SpecEngines.sample_library) 8 16 3 sample_pixels None PyNone)
    as [(_ & Hq & _) [(Hr & _) Hacc]]; [discriminate|].
  destruct (Hacc valid_sample_image eq_refl) as (Hconv & _).
  repeat split; assumption.
Defined.

Lemma compute_nfiq_three_tiers_witness :
  is_raise (nbis_compute_nfiq SpecEngines.sample_library (PyArray sample_image) None)
  <-> nfiq_ret (comp_nfiq SpecEngines.sample_library sample_pixels 16 8 8 500) < 0.
Proof.
  destruct (compute_nfiq_three_tiers SpecEngines.sample_library sample_image 16 8 None
              valid_sample_image) as (ppi & Hppi & _ & Hiff); [reflexivity|].
  injection Hppi as <-. exact Hiff.
Defined.

Lemma truncation_keeps_leading_entries_witness :
  minutiae_to_xyt crowded_minutiae 200
  = mk_xyt 200 (m_x <$> take 200 crowded_minutiae) (m_y <$> take 200 crowded_minutiae)
           (m_direction <$> take 200 crowded_minutiae) /\
  yields_result (nbis_match_xyt SpecEngines.sample_library
                   (initial_globals SpecEngines.sample_library)
                   (PyList crowded_records) (PyList sample_set)) /\
  length (take 200 crowded_records) = 200%nat.
Proof.
  destruct (truncation_keeps_leading_entries SpecEngines.sample_library
              (initial_globals SpecEngines.sample_library)
              crowded_minutiae crowded_records sample_set)
    as ((Hxyt & _) & _ & Hres & Hprobe & _);
    [vm_compute; congruence | vm_compute; reflexivity|].
  split; [exact Hxyt|]. split.
  - eexists. apply Hres; vm_compute; reflexivity.
  - apply Hprobe. vm_compute. reflexivity.
Defined.

Lemma malformed_record_within_cap_raises_witness :
  exists e, nbis_match_xyt SpecEngines.sample_library
              (initial_globals SpecEngines.sample_library)
              (PyList [minutia_record 1 2 3; PyNone]) (PyList sample_set) = Py_Raise e
            /\ invalid_input e.
Proof.
  apply (malformed_record_within_cap_raises SpecEngines.sample_library
           (initial_globals SpecEngines.sample_library)
           [minutia_record 1 2 3; PyNone] sample_set).
  vm_compute. reflexivity.
Defined.

Lemma match_empty_or_single_scores_zero_witness :
  nbis_match_xyt SpecEngines.sample_library (initial_globals SpecEngines.sample_library)
    (PyList []) (PyList sample_set) = Py_Return (PyLong 0) /\
  nbis_match_xyt SpecEngines.sample_library (initial_globals SpecEngines.sample_library)
    (PyList sample_set) (PyList []) = Py_Return (PyLong 0) /\
  nbis_match_xyt SpecEngines.sample_library (initial_globals SpecEngines.sample_library)
    (PyList [minutia_record 5 5 0]) (PyList [minutia_record 5 5 0]) = Py_Return (PyLong 0).
Proof.
  apply (match_empty_or_single_scores_zero SpecEngines.sample_parameters
           SpecEngines.sample_headers); vm_compute; reflexivity.
Defined.

Lemma detected_minutiae_in_bounds_witness :
  exists (d : gmap string PyObject) (items : list PyObject),
    nbis_extract_minutiae SpecEngines.sample_library (PyArray sample_image) None
      = Py_Return (PyDict d) /\
    d !! "minutiae" = Some (PyList items) /\
    Forall (minutia_record_ok 16 8 1 0) items.
Proof.
  apply (detected_minutiae_in_bounds SpecEngines.sample_parameters SpecEngines.sample_headers
           sample_image 16 8 None valid_sample_image).
  reflexivity.
Defined.

Lemma binarized_same_shape_two_valued_witness :
  exists (d : gmap string PyObject) (b : ndarray),
    nbis_extract_minutiae SpecEngines.sample_library (PyArray sample_image) None
      = Py_Return (PyDict d) /\
    d !! "binarized" = Some (PyArray b) /\
    dtype b = NPY_UINT8 /\ dims b = dims sample_image /\ dims b = [8; 16] /\
    length (adata b) = length (adata sample_image) /\
    Forall (fun v => v = 0 \/ v = 255) (adata b).
Proof.
  apply (binarized_same_shape_two_valued SpecEngines.sample_parameters
           SpecEngines.sample_headers sample_image 16 8 None valid_sample_image).
  reflexivity.
Defined.

(** The 512 by 512 image of constant value 128. *)
Lemma degenerate_image_empty_set_worst_class_witness :
  (exists d : gmap string PyObject,
     nbis_extract_minutiae SpecEngines.sample_library (PyArray (constant_image 512 512 128)) None
       = Py_Return (PyDict d) /\
     d !! "minutiae" = Some (PyList []) /\ d !! "count" = Some (PyLong 0)) /\
  (exists (d : gmap string PyObject) (code : Z),
     nbis_compute_nfiq SpecEngines.sample_library (PyArray (constant_image 512 512 128)) None
       = Py_Return (PyDict d) /\
     d !! "quality" = Some (PyLong 5) /\ d !! "return_code" = Some (PyLong code) /\
     status_of_return_code code = AlgorithmicCondition).
Proof.
  apply (degenerate_image_empty_set_worst_class SpecEngines.sample_parameters
           SpecEngines.sample_headers (constant_image 512 512 128) 512 512 None 500).
  - apply valid_constant_image; vm_compute; intuition congruence.
  - reflexivity.
  - unfold constant_image. cbn [adata]. rewrite constant_low_contrast.
    apply orb_true_r.
  - unfold constant_image. cbn [adata]. rewrite constant_low_contrast.
    apply orb_true_r.
Defined.

(** ** Where the code departs from the claims *)

(** C2, as stated, fails: of 201 minutiae with the most reliable one last,
    the specification's truncation to 200 keeps that one, and
    [minutiae_to_xyt] keeps the first 200 and drops it. *)
Lemma truncation_drops_most_reliable :
  length crowded_minutiae = 201%nat /\
  most_reliable 200 crowded_minutiae = high_minutia :: replicate 199 low_minutia /\
  minutiae_to_xyt crowded_minutiae 200 = minutiae_to_xyt (replicate 200 low_minutia) 200 /\
  minutiae_to_xyt crowded_minutiae 200
    <> minutiae_to_xyt (most_reliable 200 crowded_minutiae) 200.
Proof.
  split; [reflexivity|]. split; [vm_compute; reflexivity|].
  split; [vm_compute; reflexivity|].
  intros Heq. apply (f_equal (fun s => head (xcol s))) in Heq.
  vm_compute in Heq. discriminate.
Qed.

(** C6, as stated, fails: a list of 201 records whose last one is not a
    dictionary is matched, with the cap at 200, and a score is returned. *)
Lemma malformed_record_beyond_cap_scores :
  MAX_BOZORTH_MINUTIAE SpecEngines.sample_library = 200 /\
  length crowded_records = 201%nat /\
  existsb malformed_record crowded_records = true /\
  nbis_match_xyt SpecEngines.sample_library (initial_globals SpecEngines.sample_library)
    (PyList crowded_records) (PyList []) = Py_Return (PyLong 0).
Proof.
  split; [reflexivity|]. split; [reflexivity|].
  split; vm_compute; reflexivity.
Qed.

(** * Further properties of the extension *)

(** ** [minutiae_to_xyt] *)

(** X1. For a cap [max_count] that is not negative, [minutiae_to_xyt]
    fills as many rows as [nrows] says in each of the three columns, never
    more than [max_count] and never more than the minutiae it was given. *)
Theorem minutiae_to_xyt_rows (minutiae : list MINUTIA) (max_count : Z) :
  0 <= max_count ->
  let xyt := minutiae_to_xyt minutiae max_count in
  Z.of_nat (length (xcol xyt)) = nrows xyt /\
  Z.of_nat (length (ycol xyt)) = nrows xyt /\
  Z.of_nat (length (thetacol xyt)) = nrows xyt /\
  0 <= nrows xyt <= max_count /\ nrows xyt <= Z.of_nat (length minutiae).
Proof.
  intros Hcap xyt. subst xyt. unfold minutiae_to_xyt. cbn [xcol ycol thetacol nrows].
  rewrite !length_fmap, !length_take.
  destruct (Z.ltb_spec (Z.of_nat (length minutiae)) max_count); lia.
Qed.

(** X2. A list that holds no more minutiae than the cap is converted
    whole and in order: row [i] is the position and direction of minutia
    [i], and [nrows] is the length of the list. *)
Theorem minutiae_to_xyt_whole (minutiae : list MINUTIA) (max_count : Z) :
  Z.of_nat (length minutiae) <= max_count ->
  minutiae_to_xyt minutiae max_count
  = mk_xyt (Z.of_nat (length minutiae)) (m_x <$> minutiae) (m_y <$> minutiae)
           (m_direction <$> minutiae).
Proof.
  intros Hlen. unfold minutiae_to_xyt.
  destruct (Z.ltb_spec (Z.of_nat (length minutiae)) max_count) as [Hlt|Hge].
  - rewrite take_ge by lia. reflexivity.
  - assert (max_count = Z.of_nat (length minutiae)) as -> by lia.
    rewrite take_ge by lia. reflexivity.
Qed.

(** X3. [minutiae_to_xyt] reads the position and the direction of a
    minutia and nothing else: two lists that agree on them, whatever the
    reliabilities and types, give the same structure. *)
Theorem minutiae_to_xyt_reads_xyt (l l' : list MINUTIA) (max_count : Z) :
  xyt_row <$> l = xyt_row <$> l' ->
  minutiae_to_xyt l max_count = minutiae_to_xyt l' max_count.
Proof.
  intros Hrows. unfold minutiae_to_xyt.
  assert (Hlen : length l = length l').
  { rewrite <- (length_fmap xyt_row l), Hrows. apply length_fmap. }
  rewrite Hlen.
  set (n := Z.to_nat _).
  assert (Ht : xyt_row <$> take n l = xyt_row <$> take n l')
    by (rewrite !fmap_take, Hrows; reflexivity).
  assert (Hx : forall k : list MINUTIA, m_x <$> k = (fun r : Z * Z * Z => r.1.1) <$> (xyt_row <$> k))
    by (intros k; rewrite <- list_fmap_compose; reflexivity).
  assert (Hy : forall k : list MINUTIA, m_y <$> k = (fun r : Z * Z * Z => r.1.2) <$> (xyt_row <$> k))
    by (intros k; rewrite <- list_fmap_compose; reflexivity).
  assert (Hd : forall k : list MINUTIA,
             m_direction <$> k = (fun r : Z * Z * Z => r.2) <$> (xyt_row <$> k))
    by (intros k; rewrite <- list_fmap_compose; reflexivity).
  rewrite !Hx, !Hy, !Hd, Ht. reflexivity.
Qed.

(** ** [py_to_image_data] *)

(** X4. A numpy array of element type [uint8] whose two leading
    dimensions are positive and, with their product, in the range of C
    [int] is accepted by [py_to_image_data] exactly when its shape is
    [(d0, d1)] or [(d0, d1, 1)]: arrays of no, one or more than three
    dimensions, and three-dimensional ones with another last dimension,
    get no buffer. *)
Theorem py_to_image_data_accepts (a : ndarray) :
  dtype a = NPY_UINT8 -> shape_fits_int (dims a) = true ->
  ((exists img, py_to_image_data (PyArray a) = inr img) <->
   (exists d0 d1 : Z, dims a = [d0; d1] \/ dims a = [d0; d1; 1])).
Proof.
  intros Hty _. unfold py_to_image_data, PyArray_FROM_OTF_UINT8. rewrite Hty. split.
  - intros [img Himg].
    destruct (dims a) as [|d0 [|d1 [|d2 [|d3 ds]]]]; try discriminate.
    + exists d0, d1. auto.
    + exists d0, d1. cbn [grayscale_dims] in Himg. revert Himg.
      destruct (Z.eqb_spec d2 1) as [->|]; [auto | discriminate].
  - intros (d0 & d1 & [-> | ->]); eexists; reflexivity.
Qed.

(** X5. When [py_to_image_data] returns a buffer, the object is an array
    whose first dimension became the height and whose second became the
    width (both as [int]), the depth is 8, and the buffer is a prefix of
    the array's elements. *)
Theorem py_to_image_data_buffer (image_obj : PyObject) (img : image_data) :
  py_to_image_data image_obj = inr img ->
  exists (a : ndarray) (d0 d1 : Z) (rest : list Z),
    image_obj = PyArray a /\ dims a = d0 :: d1 :: rest /\
    img_height img = to_int d0 /\ img_width img = to_int d1 /\ img_depth img = 8 /\
    img_data img `prefix_of` adata a.
Proof.
  intros Himg. destruct image_obj; try discriminate.
  unfold py_to_image_data, PyArray_FROM_OTF_UINT8 in Himg.
  destruct (dtype a); [|discriminate].
  destruct (grayscale_dims (dims a)) as [[d0 d1]|] eqn:Hdims; [|discriminate].
  injection Himg as <-. cbn [img_height img_width img_depth img_data].
  assert (Hshape : exists rest, dims a = d0 :: d1 :: rest).
  { destruct (dims a) as [|e0 [|e1 [|e2 [|e3 ds]]]]; try discriminate.
    - injection Hdims as <- <-. eauto.
    - cbn [grayscale_dims] in Hdims. revert Hdims.
      destruct (e2 =? 1); [|discriminate]. intros [= <- <-]. eauto. }
  destruct Hshape as [rest Hrest].
  exists a, d0, d1, rest. repeat split; try assumption.
  apply prefix_take.
Qed.

(** ** The entry points that take an image *)

Section ImageEntryPoints.

Context (nbis : nbis_library).

(** X6. An object [py_to_image_data] turns down with error [e] is turned
    down with that error by every entry point that takes an image,
    whatever the engines are; when both arguments of
    [nbis_match_fingerprints] are turned down, the error raised is the
    gallery's. *)
Theorem unconverted_image_rejected (g : nbis_globals) (image_obj other : PyObject)
    (ppi : option PyObject) (e : PyExc) :
  py_to_image_data image_obj = inl e -> valid_ppi ppi = true ->
  nbis_extract_minutiae nbis image_obj ppi = Py_Raise e /\
  nbis_compute_nfiq nbis image_obj ppi = Py_Raise e /\
  nbis_match_fingerprints nbis g other image_obj = Py_Raise e /\
  nbis_match_fingerprints nbis g image_obj other
  = Py_Raise (match py_to_image_data other with inl e' => e' | inr _ => e end).
Proof.
  intros He Hp.
  destruct (valid_ppi_parses (DEFAULT_PPI nbis) ppi Hp) as [n Hn].
  unfold nbis_extract_minutiae, nbis_compute_nfiq, nbis_match_fingerprints.
  rewrite Hn, He. repeat split.
  - destruct (py_to_image_data other); reflexivity.
  - destruct (py_to_image_data other); reflexivity.
Qed.

(** X7. On a well-formed image [nbis_extract_minutiae] fails exactly when
    the return code of [lfs_detect_minutiae_V2] is not 0, a positive code
    included, and the failure is the [RuntimeError] of detection. *)
Theorem extract_minutiae_fails_on_nonzero (a : ndarray) (W H : Z) (ppi : option PyObject) :
  valid_image a W H -> valid_ppi ppi = true ->
  let out := lfs_detect_minutiae_V2 nbis (adata a) W H (lfsparms_V2 nbis) in
  let r := nbis_extract_minutiae nbis (PyArray a) ppi in
  (is_raise r <-> lfs_ret out <> 0) /\
  (lfs_ret out <> 0 -> r = Py_Raise (PyExc_RuntimeError "Minutiae detection failed")) /\
  (yields_result r <-> lfs_ret out = 0).
Proof.
  intros Hv Hp out r. subst out r. unfold nbis_extract_minutiae.
  destruct (valid_ppi_parses (DEFAULT_PPI nbis) ppi Hp) as [n ->].
  rewrite (py_to_image_data_valid a W H Hv). cbn [img_data img_width img_height].
  destruct (Z.eqb_spec (lfs_ret (lfs_detect_minutiae_V2 nbis (adata a) W H (lfsparms_V2 nbis))) 0)
    as [Hz|Hnz]; cbn [negb].
  - split; [|split].
    + split; [intros [e He]; discriminate | congruence].
    + congruence.
    + split; [intros _; exact Hz | intros _; eexists; reflexivity].
  - split; [|split].
    + split; [intros _; exact Hnz | intros _; eexists; reflexivity].
    + reflexivity.
    + split; [intros [v Hv']; discriminate | congruence].
Qed.

(** X8. Whatever the image and the engines, a value returned by
    [nbis_extract_minutiae] is a dictionary with exactly the keys
    [minutiae], [count] and [binarized]: a list, the length of that list,
    and a two-dimensional [uint8] array. *)
Theorem extract_minutiae_result_shape (image_obj : PyObject) (ppi : option PyObject)
    (v : PyObject) :
  nbis_extract_minutiae nbis image_obj ppi = Py_Return v ->
  exists (d : gmap string PyObject) (items : list PyObject) (b : ndarray),
    v = PyDict d /\
    dom d = list_to_set ["minutiae"; "count"; "binarized"] /\
    d !! "minutiae" = Some (PyList items) /\
    d !! "count" = Some (PyLong (Z.of_nat (length items))) /\
    d !! "binarized" = Some (PyArray b) /\
    dtype b = NPY_UINT8 /\ length (dims b) = 2%nat.
Proof.
  unfold nbis_extract_minutiae. intros Hr.
  destruct (parse_optional_int _ ppi); [discriminate|].
  destruct (py_to_image_data image_obj) as [|img]; [discriminate|].
  destruct (negb _); [discriminate|]. injection Hr as <-.
  eexists _, _, _. split; [reflexivity|]. split; [|split; [|split; [|split]]].
  - rewrite !dom_insert_L, dom_empty_L. set_solver.
  - rewrite !lookup_insert_ne by done. apply lookup_insert_eq.
  - rewrite lookup_insert_ne by done. rewrite lookup_insert_eq, length_fmap. reflexivity.
  - apply lookup_insert_eq.
  - split; reflexivity.
Qed.

(** X9. Every dictionary of the list returned under [minutiae] has
    exactly the keys [x], [y], [direction], [type], [quality] and
    [type_str], and its [type_str] is ["ending"] when its [type] is
    [RIDGE_ENDING] and ["bifurcation"] for any other code. *)
Theorem extract_minutiae_records (image_obj : PyObject) (ppi : option PyObject)
    (d : gmap string PyObject) (items : list PyObject) :
  nbis_extract_minutiae nbis image_obj ppi = Py_Return (PyDict d) ->
  d !! "minutiae" = Some (PyList items) ->
  Forall (extracted_record (RIDGE_ENDING nbis)) items.
Proof.
  unfold nbis_extract_minutiae. intros Hr Hitems.
  destruct (parse_optional_int _ ppi); [discriminate|].
  destruct (py_to_image_data image_obj) as [|img]; [discriminate|].
  destruct (negb _); [discriminate|]. injection Hr as <-.
  rewrite !lookup_insert_ne in Hitems by done. rewrite lookup_insert_eq in Hitems.
  injection Hitems as <-.
  apply Forall_fmap, Forall_forall. intros m _. unfold extracted_record, min_dict. simpl.
  eexists _, (m_x m), (m_y m), (m_direction m), (m_type m), (m_reliability m).
  split; [reflexivity|]. split.
  - rewrite !dom_insert_L, dom_empty_L. set_solver.
  - repeat (split; [rewrite ?lookup_insert_ne by done; apply lookup_insert_eq|]).
    rewrite !lookup_insert_ne by done. apply lookup_insert_eq.
Qed.

(** X10. Whatever the image and the engines, a value returned by
    [nbis_compute_nfiq] is a dictionary with exactly the keys [quality],
    [confidence] and [return_code], and its return code is never
    negative. *)
Theorem compute_nfiq_result_shape (image_obj : PyObject) (ppi : option PyObject)
    (v : PyObject) :
  nbis_compute_nfiq nbis image_obj ppi = Py_Return v ->
  exists (d : gmap string PyObject) (class code : Z) (conf : Q),
    v = PyDict d /\
    dom d = list_to_set ["quality"; "confidence"; "return_code"] /\
    d !! "quality" = Some (PyLong class) /\
    d !! "confidence" = Some (PyFloat conf) /\
    d !! "return_code" = Some (PyLong code) /\ 0 <= code.
Proof.
  unfold nbis_compute_nfiq. intros Hr.
  destruct (parse_optional_int _ ppi); [discriminate|].
  destruct (py_to_image_data image_obj) as [|img]; [discriminate|].
  match type of Hr with context [nfiq_ret ?o <? 0] =>
    destruct (Z.ltb_spec (nfiq_ret o) 0) as [|Hcode]; [discriminate|] end.
  injection Hr as <-.
  eexists _, _, _, _. split; [reflexivity|]. split; [|split; [|split; [|split]]].
  - rewrite !dom_insert_L, dom_empty_L. set_solver.
  - apply lookup_insert_eq.
  - rewrite lookup_insert_ne by done. apply lookup_insert_eq.
  - rewrite !lookup_insert_ne by done. apply lookup_insert_eq.
  - exact Hcode.
Qed.

(** X11. On two well-formed images [nbis_match_fingerprints] returns a
    score exactly when both detections return code 0; a failed detection
    of the probe is reported whatever the gallery gives, a failed
    detection of the gallery only when the probe's succeeded. *)
Theorem match_fingerprints_outcomes (g : nbis_globals) (a1 a2 : ndarray) (W1 H1 W2 H2 : Z) :
  valid_image a1 W1 H1 -> valid_image a2 W2 H2 ->
  let out1 := lfs_detect_minutiae_V2 nbis (adata a1) W1 H1 (lfsparms_V2 nbis) in
  let out2 := lfs_detect_minutiae_V2 nbis (adata a2) W2 H2 (lfsparms_V2 nbis) in
  let r := nbis_match_fingerprints nbis g (PyArray a1) (PyArray a2) in
  (lfs_ret out1 <> 0 ->
   r = Py_Raise (PyExc_RuntimeError "Probe minutiae detection failed")) /\
  (lfs_ret out1 = 0 -> lfs_ret out2 <> 0 ->
   r = Py_Raise (PyExc_RuntimeError "Gallery minutiae detection failed")) /\
  (lfs_ret out1 = 0 -> lfs_ret out2 = 0 ->
   r = Py_Return (PyLong (bz_match_score nbis g (DEFAULT_BOZORTH_MINUTIAE nbis)
                            (minutiae_to_xyt (lfs_minutiae out1) (MAX_BOZORTH_MINUTIAE nbis))
                            (minutiae_to_xyt (lfs_minutiae out2) (MAX_BOZORTH_MINUTIAE nbis))))) /\
  (yields_result r <-> lfs_ret out1 = 0 /\ lfs_ret out2 = 0).
Proof.
  intros Hv1 Hv2 out1 out2 r. subst r. unfold nbis_match_fingerprints.
  rewrite (py_to_image_data_valid a1 W1 H1 Hv1), (py_to_image_data_valid a2 W2 H2 Hv2).
  cbn [img_data img_width img_height]. fold out1 out2.
  destruct (Z.eqb_spec (lfs_ret out1) 0) as [Hz1|Hnz1]; cbn [negb];
    [destruct (Z.eqb_spec (lfs_ret out2) 0) as [Hz2|Hnz2]; cbn [negb]|].
  - split; [congruence|]. split; [congruence|]. split; [reflexivity|].
    split; [intros _; split; assumption | intros _; eexists; reflexivity].
  - split; [congruence|]. split; [reflexivity|]. split; [congruence|].
    split; [intros [v Hv']; discriminate | intros [_ ?]; contradiction].
  - split; [reflexivity|]. split; [congruence|]. split; [congruence|].
    split; [intros [v Hv']; discriminate | intros [? _]; contradiction].
Qed.

End ImageEntryPoints.

(** ** [nbis_match_xyt] *)

(** A record that is not malformed is a dictionary with the three keys. *)
Lemma wellshaped_record (o : PyObject) :
  malformed_record o = false ->
  exists (d : gmap string PyObject) (x_obj y_obj t_obj : PyObject),
    o = PyDict d /\ d !! "x" = Some x_obj /\ d !! "y" = Some y_obj
    /\ d !! "direction" = Some t_obj.
Proof.
  destruct o; try discriminate. cbn [malformed_record].
  destruct (d !! "x") as [x_obj|] eqn:Hx; [|discriminate].
  destruct (d !! "y") as [y_obj|] eqn:Hy; [|discriminate].
  destruct (d !! "direction") as [t_obj|] eqn:Ht; [|discriminate].
  intros _. exists d, x_obj, y_obj, t_obj. auto.
Qed.

Lemma error_indicator_kept (err ex ey et : option PyExc) :
  err <> None \/ ex <> None \/ ey <> None \/ et <> None ->
  from_option Some (from_option Some (from_option Some err ex) ey) et <> None.
Proof. destruct err, ex, ey, et; simpl; intuition congruence. Qed.

Lemma PyLong_AsLong_unreadable (o : PyObject) :
  unreadable_value o = true -> (PyLong_AsLong o).2 <> None.
Proof.
  destruct o; simpl; try discriminate.
  destruct (_ && _); simpl; [discriminate | intros _; discriminate].
Qed.

(** Over records that are not malformed a parsing loop runs to its end;
    an error that is set stays set, and an unreadable value sets one. *)
Lemma parse_minutiae_wellshaped (items : list PyObject) (err : option PyExc) :
  existsb malformed_record items = false ->
  exists (rows : list (Z * Z * Z)) (err' : option PyExc),
    parse_minutiae items err = inr (rows, err') /\
    (err <> None -> err' <> None) /\
    (existsb unreadable_record items = true -> err' <> None).
Proof.
  revert err. induction items as [|item rest IH]; intros err Hshape.
  - exists [], err. split; [reflexivity|]. split; [auto | discriminate].
  - cbn [existsb] in Hshape. apply orb_false_elim in Hshape as [Hitem Hrest].
    destruct (wellshaped_record item Hitem) as (d & x_obj & y_obj & t_obj & -> & Hx & Hy & Ht).
    rewrite (parse_minutiae_step d x_obj y_obj t_obj rest err Hx Hy Ht).
    set (err1 := from_option Some _ _).
    destruct (IH err1 Hrest) as (rows & err' & -> & Hkeep & Hbad).
    eexists _, err'. split; [reflexivity|]. split.
    + intros Herr. apply Hkeep. apply error_indicator_kept. auto.
    + cbn [existsb unreadable_record]. rewrite Hx, Hy, Ht. intros Hun.
      apply orb_prop in Hun as [Hun|Hun]; [|apply Hbad, Hun].
      apply Hkeep, error_indicator_kept. right.
      apply orb_prop in Hun as [Hun|Hun];
        [apply orb_prop in Hun as [Hun|Hun]|];
        apply PyLong_AsLong_unreadable in Hun; auto.
Qed.

(** The first malformed record a loop meets decides the error. *)
Lemma parse_first_malformed (pre : list PyObject) (r : PyObject) (rest : list PyObject)
    (err : option PyExc) :
  existsb malformed_record pre = false -> malformed_record r = true ->
  parse_minutiae (pre ++ r :: rest) err = inl (error_of_record r).
Proof.
  revert err. induction pre as [|item pre IH]; intros err Hpre Hr.
  - cbn [app]. destruct r; try reflexivity. simpl in Hr |- *.
    destruct (d !! "x"); [|reflexivity]. destruct (d !! "y"); [|reflexivity].
    destruct (d !! "direction"); [discriminate | reflexivity].
  - cbn [existsb] in Hpre. apply orb_false_elim in Hpre as [Hitem Hpre].
    destruct (wellshaped_record item Hitem) as (d & x_obj & y_obj & t_obj & -> & Hx & Hy & Ht).
    rewrite <- app_comm_cons.
    rewrite (parse_minutiae_step d x_obj y_obj t_obj _ err Hx Hy Ht), IH by assumption.
    reflexivity.
Qed.

(** A loop looks at nothing of a record but its [xyt_view]. *)
Lemma parse_minutiae_view (items items' : list PyObject) (err : option PyExc) :
  xyt_view <$> items = xyt_view <$> items' ->
  parse_minutiae items err = parse_minutiae items' err.
Proof.
  revert items' err. induction items as [|item rest IH]; intros [|item' rest'] err Hview;
    try discriminate; [reflexivity|].
  rewrite !fmap_cons in Hview. injection Hview as Hhead Htail.
  destruct item, item'; try discriminate; try reflexivity.
  simpl in Hhead. injection Hhead as Hx Hy Ht.
  simpl. rewrite Hx, Hy, Ht.
  destruct (d0 !! "x") as [x_obj|]; [|reflexivity].
  destruct (d0 !! "y") as [y_obj|]; [|reflexivity].
  destruct (d0 !! "direction") as [t_obj|]; [|reflexivity].
  destruct (PyLong_AsLong x_obj), (PyLong_AsLong y_obj), (PyLong_AsLong t_obj).
  rewrite (IH rest' _ Htail). reflexivity.
Qed.

Section MatchXyt.

Context (nbis : nbis_library).

(** X12. With two lists as arguments, [nbis_match_xyt] raises exactly when
    a record among the first [MAX_BOZORTH_MINUTIAE] of a list is
    malformed.  When none is, it returns a score whatever the values under
    the three keys are, with or without an error left set. *)
Theorem match_xyt_raises_iff (g : nbis_globals) (probe gallery : list PyObject) :
  let n := Z.to_nat (MAX_BOZORTH_MINUTIAE nbis) in
  let r := nbis_match_xyt nbis g (PyList probe) (PyList gallery) in
  (is_raise r <->
   existsb malformed_record (take n probe) || existsb malformed_record (take n gallery) = true)
  /\
  (existsb malformed_record (take n probe) || existsb malformed_record (take n gallery) = false ->
   exists score : Z,
     r = Py_Return (PyLong score) \/ exists e, r = Py_ReturnWithErrorSet (PyLong score) e).
Proof.
  intros n r.
  assert (Hclean :
    existsb malformed_record (take n probe) || existsb malformed_record (take n gallery) = false ->
    exists score : Z,
      r = Py_Return (PyLong score) \/ exists e, r = Py_ReturnWithErrorSet (PyLong score) e).
  { intros Hno. apply orb_false_elim in Hno as [Hp Hg].
    subst r. unfold nbis_match_xyt. rewrite !capped_take. fold n.
    destruct (parse_minutiae_wellshaped (take n probe) None Hp) as (prows & err1 & -> & _ & _).
    destruct (parse_minutiae_wellshaped (take n gallery) err1 Hg) as (grows & err2 & -> & _ & _).
    eexists. destruct err2 as [e|]; [right; eexists; reflexivity | left; reflexivity]. }
  split; [|exact Hclean]. split.
  - intros [e He].
    destruct (existsb malformed_record (take n probe) || existsb malformed_record (take n gallery))
      eqn:Hbad; [reflexivity|].
    destruct (Hclean eq_refl) as [score [Hr | [e' Hr]]]; congruence.
  - intros Hbad. subst r. unfold nbis_match_xyt. rewrite !capped_take. fold n.
    destruct (parse_minutiae (take n probe) None) as [e|[prows err1]] eqn:Hprobe;
      [eexists; reflexivity|].
    apply orb_prop in Hbad as [Hp|Hg].
    + destruct (parse_minutiae_malformed _ None Hp) as [e He]. congruence.
    + destruct (parse_minutiae_malformed _ err1 Hg) as [e ->]. eexists; reflexivity.
Qed.

(** X13. The result of [PyLong_AsLong] is not checked: when no record
    within the cap is malformed and one of them holds, under [x], [y] or
    [direction], a value that is no int or an int outside the range of C
    [long], [nbis_match_xyt] raises nothing and hands back a score while
    the error of the conversion is still set. *)
Theorem match_xyt_unchecked_values (g : nbis_globals) (probe gallery : list PyObject) :
  let n := Z.to_nat (MAX_BOZORTH_MINUTIAE nbis) in
  existsb malformed_record (take n probe) || existsb malformed_record (take n gallery) = false ->
  existsb unreadable_record (take n probe) || existsb unreadable_record (take n gallery) = true ->
  exists (score : Z) (e : PyExc),
    nbis_match_xyt nbis g (PyList probe) (PyList gallery)
    = Py_ReturnWithErrorSet (PyLong score) e.
Proof.
  intros n Hshape Hun. apply orb_false_elim in Hshape as [Hp Hg].
  unfold nbis_match_xyt. rewrite !capped_take. fold n.
  destruct (parse_minutiae_wellshaped (take n probe) None Hp)
    as (prows & err1 & -> & _ & Hbad1).
  destruct (parse_minutiae_wellshaped (take n gallery) err1 Hg)
    as (grows & err2 & -> & Hkeep & Hbad2).
  assert (Herr : err2 <> None).
  { apply orb_prop in Hun as [Hun|Hun]; [apply Hkeep, Hbad1, Hun | apply Hbad2, Hun]. }
  destruct err2 as [e|]; [|contradiction]. eexists _, e. reflexivity.
Qed.

Lemma take_past_prefix {A} (n : nat) (pre : list A) (r : A) (rest : list A) :
  (length pre < n)%nat ->
  take n (pre ++ r :: rest) = pre ++ r :: take (n - S (length pre)) rest.
Proof.
  intros Hlen. rewrite take_app, (take_ge pre) by lia.
  replace (n - length pre)%nat with (S (n - S (length pre))) by lia. reflexivity.
Qed.

(** X14. The first malformed record decides the error: when the probe
    list holds a malformed record within the cap, after records that are
    not, [nbis_match_xyt] raises [TypeError] if that record is no
    dictionary and [ValueError] if it lacks a key, whatever follows it and
    whatever the gallery holds; the gallery is treated alike once the
    probe has no malformed record within the cap. *)
Theorem first_malformed_record_decides (g : nbis_globals) (pre : list PyObject) (r : PyObject)
    (rest other : list PyObject) :
  let n := Z.to_nat (MAX_BOZORTH_MINUTIAE nbis) in
  (length pre < n)%nat ->
  existsb malformed_record pre = false -> malformed_record r = true ->
  nbis_match_xyt nbis g (PyList (pre ++ r :: rest)) (PyList other)
    = Py_Raise (error_of_record r) /\
  (existsb malformed_record (take n other) = false ->
   nbis_match_xyt nbis g (PyList other) (PyList (pre ++ r :: rest))
     = Py_Raise (error_of_record r)).
Proof.
  intros n Hlen Hpre Hr. split.
  - unfold nbis_match_xyt. rewrite !capped_take. fold n.
    rewrite (take_past_prefix n pre r rest Hlen).
    rewrite (parse_first_malformed pre r _ None Hpre Hr). reflexivity.
  - intros Hother. unfold nbis_match_xyt. rewrite !capped_take. fold n.
    destruct (parse_minutiae_wellshaped (take n other) None Hother)
      as (rows & err1 & -> & _ & _).
    rewrite (take_past_prefix n pre r rest Hlen).
    rewrite (parse_first_malformed pre r _ err1 Hpre Hr). reflexivity.
Qed.

(** X15. [nbis_match_xyt] reads nothing of a record but whether it is a
    dictionary and the objects under [x], [y] and [direction]: lists whose
    records agree on these give the same result, whatever other keys
    (type, quality, type_str) the records hold. *)
Theorem match_xyt_reads_three_keys (g : nbis_globals)
    (probe probe' gallery gallery' : list PyObject) :
  xyt_view <$> probe = xyt_view <$> probe' ->
  xyt_view <$> gallery = xyt_view <$> gallery' ->
  nbis_match_xyt nbis g (PyList probe) (PyList gallery)
  = nbis_match_xyt nbis g (PyList probe') (PyList gallery').
Proof.
  intros Hp Hg.
  assert (Hlp : length probe = length probe').
  { rewrite <- (length_fmap xyt_view probe), Hp. apply length_fmap. }
  assert (Hlg : length gallery = length gallery').
  { rewrite <- (length_fmap xyt_view gallery), Hg. apply length_fmap. }
  unfold nbis_match_xyt. rewrite Hlp, Hlg.
  set (pc := if _ <? Z.of_nat (length probe') then _ else _).
  set (gc := if _ <? Z.of_nat (length gallery') then _ else _).
  rewrite (parse_minutiae_view (take (Z.to_nat pc) probe) (take (Z.to_nat pc) probe') None)
    by (rewrite !fmap_take, Hp; reflexivity).
  destruct (parse_minutiae (take (Z.to_nat pc) probe') None) as [e|[prows err1]];
    [reflexivity|].
  rewrite (parse_minutiae_view (take (Z.to_nat gc) gallery) (take (Z.to_nat gc) gallery') err1)
    by (rewrite !fmap_take, Hg; reflexivity).
  reflexivity.
Qed.

(** The errors [nbis_match_xyt] raises on two lists are those of its
    parsing loops. *)
Lemma match_xyt_lists_raise (g : nbis_globals) (probe gallery : list PyObject) (e : PyExc) :
  nbis_match_xyt nbis g (PyList probe) (PyList gallery) = Py_Raise e -> invalid_input e.
Proof.
  unfold nbis_match_xyt.
  match goal with |- context [parse_minutiae ?items None] =>
    destruct (parse_minutiae items None) as [e1|[prows err1]] eqn:Hprobe end.
  - intros [= <-]. eapply parse_minutiae_raises, Hprobe.
  - match goal with |- context [parse_minutiae ?items err1] =>
      destruct (parse_minutiae items err1) as [e2|[grows err2]] eqn:Hgallery end.
    + intros [= <-]. eapply parse_minutiae_raises, Hgallery.
    + destruct err2; discriminate.
Qed.

(** X16. [nbis_match_xyt] raises the [TypeError] "Both arguments must be
    lists of minutiae" exactly when one of its two arguments is not a
    list; an empty list is a list. *)
Theorem match_xyt_wants_lists (g : nbis_globals) (probe_list gallery_list : PyObject) :
  nbis_match_xyt nbis g probe_list gallery_list
    = Py_Raise (PyExc_TypeError "Both arguments must be lists of minutiae")
  <-> is_list probe_list && is_list gallery_list = false.
Proof.
  destruct probe_list, gallery_list; try (split; reflexivity).
  split; [|discriminate].
  intros Hr. apply match_xyt_lists_raise in Hr as [Hr|Hr]; discriminate.
Qed.

(** The dictionary built for a minutia is read back as its row. *)
Lemma parse_min_dict (m : MINUTIA) (rest : list PyObject) (err : option PyExc) :
  int_minutia m = true ->
  parse_minutiae (min_dict nbis m :: rest) err
  = match parse_minutiae rest err with
    | inl e => inl e
    | inr (rows, err') => inr (xyt_row m :: rows, err')
    end.
Proof.
  unfold int_minutia, in_int. intros Hm.
  apply andb_prop in Hm as [Hm Ht]. apply andb_prop in Hm as [Hx Hy].
  apply andb_prop in Hx as [Hx0 Hx1]. apply andb_prop in Hy as [Hy0 Hy1].
  apply andb_prop in Ht as [Ht0 Ht1].
  apply Z.leb_le in Hx0, Hx1, Hy0, Hy1, Ht0, Ht1.
  unfold min_dict.
  erewrite parse_minutiae_step;
    [| apply lookup_insert_eq
     | rewrite lookup_insert_ne by done; apply lookup_insert_eq
     | rewrite !lookup_insert_ne by done; apply lookup_insert_eq ].
  assert (Hlong : forall z, INT_MIN <= z <= INT_MAX ->
            PyLong_AsLong (PyLong z) = (z, None)).
  { intros z Hz. unfold PyLong_AsLong.
    destruct (Z.leb_spec LONG_MIN z), (Z.leb_spec z LONG_MAX); try reflexivity;
      unfold INT_MIN, INT_MAX, LONG_MIN, LONG_MAX in *; lia. }
  rewrite !Hlong by lia. cbn [fst snd from_option].
  rewrite !to_int_id by lia. reflexivity.
Qed.

(** The dictionaries built for a list of minutiae are read back as their
    rows, and no error is set. *)
Lemma parse_min_dicts (minutiae : list MINUTIA) (err : option PyExc) :
  forallb int_minutia minutiae = true ->
  parse_minutiae (min_dict nbis <$> minutiae) err = inr (xyt_row <$> minutiae, err).
Proof.
  induction minutiae as [|m rest IH]; intros Hall; [reflexivity|].
  cbn [forallb] in Hall. apply andb_prop in Hall as [Hm Hrest].
  rewrite !fmap_cons, (parse_min_dict m _ err Hm), (IH Hrest). reflexivity.
Qed.

Lemma xyt_of_rows_minutiae (minutiae : list MINUTIA) (cap : Z) :
  xyt_of_rows (if cap <? Z.of_nat (length minutiae) then cap else Z.of_nat (length minutiae))
              (xyt_row <$> take (Z.to_nat cap) minutiae)
  = minutiae_to_xyt minutiae cap.
Proof.
  unfold xyt_of_rows, minutiae_to_xyt.
  rewrite <- !list_fmap_compose.
  destruct (Z.ltb_spec cap (Z.of_nat (length minutiae))) as [Hlt|Hge];
    destruct (Z.ltb_spec (Z.of_nat (length minutiae)) cap) as [Hlt'|Hge']; try lia.
  - reflexivity.
  - rewrite !(take_ge minutiae) by lia. reflexivity.
  - assert (cap = Z.of_nat (length minutiae)) as -> by lia. reflexivity.
Qed.

(** X17. The records [nbis_extract_minutiae] builds for a list of
    minutiae are read back by the parsing loop of [nbis_match_xyt] with no
    error set, and the structure filled from the first [cap] of them is
    the one [minutiae_to_xyt] fills from the minutiae themselves, provided
    positions and directions are C [int]s as in [MINUTIA]. *)
Theorem extracted_records_round_trip (minutiae : list MINUTIA) (cap : Z) :
  forallb int_minutia minutiae = true ->
  let count := if cap <? Z.of_nat (length minutiae) then cap
               else Z.of_nat (length minutiae) in
  exists rows : list (Z * Z * Z),
    parse_minutiae (take (Z.to_nat cap) (min_dict nbis <$> minutiae)) None = inr (rows, None) /\
    xyt_of_rows count rows = minutiae_to_xyt minutiae cap.
Proof.
  intros Hall count. exists (xyt_row <$> take (Z.to_nat cap) minutiae). split.
  - rewrite <- fmap_take. apply parse_min_dicts, forallb_take, Hall.
  - apply xyt_of_rows_minutiae.
Qed.

(** What a returned dictionary of [nbis_extract_minutiae] tells of the
    call: the image was converted, detection returned 0, and the list is
    made of the detected minutiae. *)
Lemma extract_minutiae_returned (image_obj : PyObject) (ppi : option PyObject)
    (d : gmap string PyObject) (l : PyObject) :
  nbis_extract_minutiae nbis image_obj ppi = Py_Return (PyDict d) ->
  d !! "minutiae" = Some l ->
  exists img, py_to_image_data image_obj = inr img /\
    lfs_ret (detected nbis image_obj) = 0 /\
    l = PyList (min_dict nbis <$> lfs_minutiae (detected nbis image_obj)).
Proof.
  unfold nbis_extract_minutiae, detected. intros Hr Hl.
  destruct (parse_optional_int _ ppi); [discriminate|].
  destruct (py_to_image_data image_obj) as [|img]; [discriminate|].
  exists img. split; [reflexivity|].
  match type of Hr with context [lfs_ret ?o =? 0] =>
    destruct (Z.eqb_spec (lfs_ret o) 0) as [Hz|]; [|discriminate] end.
  cbn [negb] in Hr. injection Hr as <-.
  rewrite !lookup_insert_ne in Hl by done. rewrite lookup_insert_eq in Hl.
  injection Hl as <-. split; [exact Hz | reflexivity].
Qed.

(** X18. Matching the minutiae lists [nbis_extract_minutiae] returned for
    two images with [nbis_match_xyt] gives exactly what
    [nbis_match_fingerprints] gives on the two images, provided the
    detected positions and directions are C [int]s as in [MINUTIA]. *)
Theorem match_xyt_on_extracted (g : nbis_globals) (image1 image2 : PyObject)
    (ppi1 ppi2 : option PyObject) (d1 d2 : gmap string PyObject) (l1 l2 : PyObject) :
  nbis_extract_minutiae nbis image1 ppi1 = Py_Return (PyDict d1) ->
  d1 !! "minutiae" = Some l1 ->
  nbis_extract_minutiae nbis image2 ppi2 = Py_Return (PyDict d2) ->
  d2 !! "minutiae" = Some l2 ->
  forallb int_minutia (lfs_minutiae (detected nbis image1)) = true ->
  forallb int_minutia (lfs_minutiae (detected nbis image2)) = true ->
  nbis_match_xyt nbis g l1 l2 = nbis_match_fingerprints nbis g image1 image2.
Proof.
  intros Hr1 Hl1 Hr2 Hl2 Hint1 Hint2.
  destruct (extract_minutiae_returned image1 ppi1 d1 l1 Hr1 Hl1) as (img1 & Hc1 & Hz1 & ->).
  destruct (extract_minutiae_returned image2 ppi2 d2 l2 Hr2 Hl2) as (img2 & Hc2 & Hz2 & ->).
  unfold nbis_match_fingerprints. unfold detected in *. rewrite Hc1, Hc2 in *.
  rewrite Hz1, Hz2. cbn [Z.eqb negb].
  unfold nbis_match_xyt. rewrite !capped_take, !length_fmap, <- !fmap_take.
  rewrite (parse_min_dicts _ None) by (apply forallb_take; assumption).
  rewrite (parse_min_dicts _ None) by (apply forallb_take; assumption).
  rewrite !xyt_of_rows_minutiae. reflexivity.
Qed.

End MatchXyt.

(** ** The further properties on sample inputs *)

Lemma sample_extraction :
  exists d : gmap string PyObject,
    nbis_extract_minutiae SpecEngines.sample_library (PyArray sample_image) None
      = Py_Return (PyDict d) /\
    d !! "minutiae"
      = Some (PyList (min_dict SpecEngines.sample_library
                        <$> lfs_minutiae (detected SpecEngines.sample_library
                                            (PyArray sample_image)))).
Proof.
  eexists. split.
  - apply (extract_minutiae_spec SpecEngines.sample_parameters SpecEngines.sample_headers
             sample_image 16 8 None valid_sample_image). reflexivity.
  - rewrite !lookup_insert_ne by done. rewrite lookup_insert_eq.
    vm_compute. reflexivity.
Defined.

Lemma minutiae_to_xyt_rows_witness :
  Z.of_nat (length (xcol (minutiae_to_xyt crowded_minutiae 200)))
    = nrows (minutiae_to_xyt crowded_minutiae 200) /\
  nrows (minutiae_to_xyt crowded_minutiae 200) <= 200.
Proof.
  destruct (minutiae_to_xyt_rows crowded_minutiae 200) as (Hx & _ & _ & [_ Hcap] & _);
    [vm_compute; congruence|].
  split; assumption.
Defined.

Lemma minutiae_to_xyt_whole_witness :
  minutiae_to_xyt [low_minutia; high_minutia] 200
  = mk_xyt 2 [10; 20] [10; 20] [0; 0].
Proof.
  apply (minutiae_to_xyt_whole [low_minutia; high_minutia] 200). vm_compute. congruence.
Defined.

Lemma minutiae_to_xyt_reads_xyt_witness :
  minutiae_to_xyt [mk_MINUTIA 10 10 0 (1 # 10) 1] 200
  = minutiae_to_xyt [mk_MINUTIA 10 10 0 (9 # 10) 0] 200.
Proof. apply minutiae_to_xyt_reads_xyt. reflexivity. Defined.

Lemma py_to_image_data_accepts_witness :
  (exists img, py_to_image_data (PyArray sample_image) = inr img) <->
  (exists d0 d1 : Z, dims sample_image = [d0; d1] \/ dims sample_image = [d0; d1; 1]).
Proof. apply py_to_image_data_accepts; reflexivity. Defined.

Lemma py_to_image_data_buffer_witness :
  exists (a : ndarray) (d0 d1 : Z) (rest : list Z),
    PyArray sample_image = PyArray a /\ dims a = d0 :: d1 :: rest /\
    to_int 8 = to_int d0 /\ to_int 16 = to_int d1 /\ 8 = 8 /\
    sample_pixels `prefix_of` adata a.
Proof.
  apply (py_to_image_data_buffer (PyArray sample_image) (mk_image_data sample_pixels 16 8 8)).
  apply (py_to_image_data_valid sample_image 16 8 valid_sample_image).
Defined.

Lemma unconverted_image_rejected_witness :
  nbis_extract_minutiae SpecEngines.sample_library PyNone None
    = Py_Raise (PyExc_TypeError "Image must be a numpy array") /\
  nbis_match_fingerprints SpecEngines.sample_library
    (initial_globals SpecEngines.sample_library) PyNone
    (PyArray (mk_ndarray NPY_UINT8 [4] [0; 0; 0; 0]))
    = Py_Raise (PyExc_ValueError "Image must be 2D grayscale").
Proof.
  destruct (unconverted_image_rejected SpecEngines.sample_library
              (initial_globals SpecEngines.sample_library) PyNone
              (PyArray (mk_ndarray NPY_UINT8 [4] [0; 0; 0; 0])) None
              (PyExc_TypeError "Image must be a numpy array"))
    as (He & _ & _ & Hm); [reflexivity | reflexivity|].
  split; [exact He | exact Hm].
Defined.

Lemma extract_minutiae_fails_on_nonzero_witness :
  yields_result (nbis_extract_minutiae SpecEngines.sample_library (PyArray sample_image) None)
  <-> lfs_ret (lfs_detect_minutiae_V2 SpecEngines.sample_library sample_pixels 16 8
                 (lfsparms_V2 SpecEngines.sample_library)) = 0.
Proof.
  destruct (extract_minutiae_fails_on_nonzero SpecEngines.sample_library sample_image 16 8 None
              valid_sample_image) as (_ & _ & Hiff); [reflexivity|].
  exact Hiff.
Defined.

Lemma extract_minutiae_result_shape_witness :
  exists (d : gmap string PyObject) (items : list PyObject),
    dom d = list_to_set ["minutiae"; "count"; "binarized"] /\
    d !! "minutiae" = Some (PyList items) /\
    d !! "count" = Some (PyLong (Z.of_nat (length items))).
Proof.
  destruct sample_extraction as (d0 & Hr & _).
  destruct (extract_minutiae_result_shape SpecEngines.sample_library
              (PyArray sample_image) None (PyDict d0) Hr)
    as (d & items & b & _ & Hdom & Hitems & Hcount & _).
  exists d, items. repeat split; assumption.
Defined.

Lemma extract_minutiae_records_witness :
  Forall (extracted_record 1)
    (min_dict SpecEngines.sample_library
       <$> lfs_minutiae (detected SpecEngines.sample_library (PyArray sample_image))).
Proof.
  destruct sample_extraction as (d0 & Hr & Hitems).
  exact (extract_minutiae_records SpecEngines.sample_library
           (PyArray sample_image) None d0 _ Hr Hitems).
Defined.

Lemma compute_nfiq_result_shape_witness :
  exists (d : gmap string PyObject) (code : Z),
    dom d = list_to_set ["quality"; "confidence"; "return_code"] /\
    d !! "return_code" = Some (PyLong code) /\ 0 <= code.
Proof.
  destruct (compute_nfiq_result_shape SpecEngines.sample_library
              (PyArray (constant_image 16 8 7)) None
              (quality_dict (mk_nfiq_output 1 5 1)))
    as (d & class & code & conf & _ & Hdom & _ & _ & Hcode & Hpos);
    [vm_compute; reflexivity|].
  exists d, code. repeat split; assumption.
Defined.

Lemma match_fingerprints_outcomes_witness :
  yields_result (nbis_match_fingerprints SpecEngines.sample_library
                   (initial_globals SpecEngines.sample_library)
                   (PyArray sample_image) (PyArray sample_image))
  <-> lfs_ret (lfs_detect_minutiae_V2 SpecEngines.sample_library sample_pixels 16 8
                 (lfsparms_V2 SpecEngines.sample_library)) = 0
      /\ lfs_ret (lfs_detect_minutiae_V2 SpecEngines.sample_library sample_pixels 16 8
                    (lfsparms_V2 SpecEngines.sample_library)) = 0.
Proof.
  destruct (match_fingerprints_outcomes SpecEngines.sample_library
              (initial_globals SpecEngines.sample_library)
              sample_image sample_image 16 8 16 8 valid_sample_image valid_sample_image)
    as (_ & _ & _ & Hiff).
  exact Hiff.
Defined.

Lemma match_xyt_unchecked_values_witness :
  exists (score : Z) (e : PyExc),
    nbis_match_xyt SpecEngines.sample_library (initial_globals SpecEngines.sample_library)
      (PyList [minutia_record 1 2 3; float_record]) (PyList sample_set)
    = Py_ReturnWithErrorSet (PyLong score) e.
Proof.
  apply (match_xyt_unchecked_values SpecEngines.sample_library
           (initial_globals SpecEngines.sample_library)
           [minutia_record 1 2 3; float_record] sample_set); vm_compute; reflexivity.
Defined.

Lemma first_malformed_record_decides_witness :
  nbis_match_xyt SpecEngines.sample_library (initial_globals SpecEngines.sample_library)
    (PyList ([minutia_record 1 2 3] ++ headless_record :: [PyNone])) (PyList [PyNone])
  = Py_Raise (PyExc_ValueError "Minutiae must have x, y, and direction").
Proof.
  destruct (first_malformed_record_decides SpecEngines.sample_library
              (initial_globals SpecEngines.sample_library)
              [minutia_record 1 2 3] headless_record [PyNone] [PyNone]) as [Hp _];
    [vm_compute; lia | vm_compute; reflexivity | vm_compute; reflexivity|].
  exact Hp.
Defined.

Lemma match_xyt_reads_three_keys_witness :
  nbis_match_xyt SpecEngines.sample_library (initial_globals SpecEngines.sample_library)
    (PyList [min_dict SpecEngines.sample_library (mk_MINUTIA 3 4 10 (1 # 2) 1)])
    (PyList sample_set)
  = nbis_match_xyt SpecEngines.sample_library (initial_globals SpecEngines.sample_library)
      (PyList [minutia_record 3 4 10]) (PyList sample_set).
Proof. apply match_xyt_reads_three_keys; vm_compute; reflexivity. Defined.

Lemma extracted_records_round_trip_witness :
  exists rows : list (Z * Z * Z),
    parse_minutiae (take 200 (min_dict SpecEngines.sample_library <$> crowded_minutiae)) None
      = inr (rows, None) /\
    xyt_of_rows 200 rows = minutiae_to_xyt crowded_minutiae 200.
Proof.
  apply (extracted_records_round_trip SpecEngines.sample_library crowded_minutiae 200).
  vm_compute. reflexivity.
Defined.

Lemma match_xyt_on_extracted_witness :
  nbis_match_xyt SpecEngines.sample_library (initial_globals SpecEngines.sample_library)
    (PyList (min_dict SpecEngines.sample_library
               <$> lfs_minutiae (detected SpecEngines.sample_library (PyArray sample_image))))
    (PyList (min_dict SpecEngines.sample_library
               <$> lfs_minutiae (detected SpecEngines.sample_library (PyArray sample_image))))
  = nbis_match_fingerprints SpecEngines.sample_library
      (initial_globals SpecEngines.sample_library) (PyArray sample_image) (PyArray sample_image).
Proof.
  destruct sample_extraction as (d0 & Hr & Hitems).
  apply (match_xyt_on_extracted SpecEngines.sample_library
           (initial_globals SpecEngines.sample_library)
           (PyArray sample_image) (PyArray sample_image) None None d0 d0 _ _
           Hr Hitems Hr Hitems); vm_compute; reflexivity.
Defined.

